(** * BaseWindow: a shallow embedding of the native window wrapper

    The development follows [src/cascadia/WindowsTerminal/BaseWindow.h].
    The wrapper's fields are a record, its methods are computations in a
    small state monad that threads the fields of [this] together with the
    trace of every call that leaves the wrapper (operating-system calls and
    the subclass hooks [OnResize], [OnMinimize], [OnRestore]).  The static
    window procedure [WndProc] runs over a store of instances addressed by
    pointer and over the per-window user data in which the instance pointer
    is registered.

    Values the operating system hands back (the default window procedure's
    result, the child window, the window's DPI, the rectangles and the
    message payloads read through [lparam]) are answers of an oracle that
    may depend on the whole history of calls so far.  Single-precision
    arithmetic is IEEE-754 binary32 as specified by [SpecFloat]. *)

From Stdlib Require Import ZArith List Bool Lia QArith Qround Qabs.
From Stdlib Require Import Floats.SpecFloat.
From stdpp Require Import base option list gmap.

Local Open Scope Z_scope.

(** ** Platform types and constants *)

Definition HWND := Z.      (* a window handle; [0] is [nullptr] *)
Definition UINT := Z.      (* 32-bit unsigned *)
Definition WPARAM := Z.    (* UINT_PTR *)
Definition LPARAM := Z.    (* LONG_PTR, also used as an address *)
Definition LRESULT := Z.   (* LONG_PTR *)
Definition LONG := Z.      (* 32-bit signed *)
Definition wchar_t := Z.   (* a UTF-16 code unit *)
Definition wstring := list wchar_t.

(** Values of the Windows SDK headers (WinUser.h). *)
Definition WM_DESTROY : UINT := 0x0002.
Definition WM_SIZE : UINT := 0x0005.
Definition WM_NCCREATE : UINT := 0x0081.
Definition WM_DPICHANGED : UINT := 0x02E0.
Definition WM_USER : UINT := 0x0400.
Definition SIZE_RESTORED : WPARAM := 0.
Definition SIZE_MINIMIZED : WPARAM := 1.
Definition SIZE_MAXIMIZED : WPARAM := 2.
Definition GWLP_USERDATA : Z := -21.
Definition GW_CHILD : UINT := 5.
Definition SWP_NOZORDER : UINT := 0x0004.
Definition SWP_NOACTIVATE : UINT := 0x0010.
Definition USER_DEFAULT_SCREEN_DPI : Z := 96.

(** [#define CM_UPDATE_TITLE (WM_USER)] *)
Definition CM_UPDATE_TITLE : UINT := WM_USER.

(** [LOWORD(l)] is [(WORD)(l & 0xffff)], [HIWORD(l)] is
    [(WORD)((l >> 16) & 0xffff)]. *)
Definition LOWORD (l : Z) : Z := Z.land l 0xffff.
Definition HIWORD (l : Z) : Z := Z.land (Z.shiftr l 16) 0xffff.

(** A value read as a 32-bit unsigned, resp. signed, integer. *)
Definition to_UINT (z : Z) : UINT := z mod 2 ^ 32.
Definition to_LONG (z : Z) : LONG := (z + 2 ^ 31) mod 2 ^ 32 - 2 ^ 31.

Record RECT := { left : LONG; top : LONG; right : LONG; bottom : LONG }.
Record SIZE := { cx : LONG; cy : LONG }.

(** ** Single-precision floating point *)

Module Float32.

Definition prec : Z := 24.
Definition emax : Z := 128.

Definition float := spec_float.

(** Conversion of an integer, rounding to nearest even. *)
Definition of_Z (z : Z) : float := binary_normalize prec emax z 0 false.

Definition div : float -> float -> float := SFdiv prec emax.
Definition add : float -> float -> float := SFadd prec emax.

(** The literal [0.5f], and the scale 1. *)
Definition half : float := Eval cbv in binary_normalize prec emax 1 (-1) false.
Definition one : float := Eval cbv in binary_normalize prec emax 1 0 false.

(** The rational value of a finite float. *)
Definition to_Q (f : float) : option Q :=
  match f with
  | S754_zero _ => Some 0%Q
  | S754_finite s m e =>
      let mag := match e with
                 | Zneg p => Qmake (Zpos m) (2 ^ p)
                 | _ => inject_Z (Zpos m * 2 ^ e)
                 end in
      Some (if s then Qopp mag else mag)
  | _ => None
  end.

End Float32.

(** [winrt::Windows::Foundation::Size]: two [float] members. *)
Record Size := { Width : Float32.float; Height : Float32.float }.

(** ** The wrapper's fields *)

(** [wil::unique_hwnd _window] holds the owned handle ([0] when empty). *)
Record BaseWindow := {
  _window : HWND;
  _currentDpi : UINT;
  _inDpiChange : bool;
  _title : wstring;
  _minimized : bool
}.

(** The state of a freshly constructed instance (the member initialisers). *)
Definition BaseWindow_init : BaseWindow :=
  {| _window := 0; _currentDpi := 0; _inDpiChange := false;
     _title := []; _minimized := false |}.

Definition set_window (h : HWND) (b : BaseWindow) : BaseWindow :=
  {| _window := h; _currentDpi := _currentDpi b; _inDpiChange := _inDpiChange b;
     _title := _title b; _minimized := _minimized b |}.
Definition set_currentDpi (d : UINT) (b : BaseWindow) : BaseWindow :=
  {| _window := _window b; _currentDpi := d; _inDpiChange := _inDpiChange b;
     _title := _title b; _minimized := _minimized b |}.
Definition set_inDpiChange (f : bool) (b : BaseWindow) : BaseWindow :=
  {| _window := _window b; _currentDpi := _currentDpi b; _inDpiChange := f;
     _title := _title b; _minimized := _minimized b |}.
Definition set_title (t : wstring) (b : BaseWindow) : BaseWindow :=
  {| _window := _window b; _currentDpi := _currentDpi b; _inDpiChange := _inDpiChange b;
     _title := t; _minimized := _minimized b |}.
Definition set_minimized (f : bool) (b : BaseWindow) : BaseWindow :=
  {| _window := _window b; _currentDpi := _currentDpi b; _inDpiChange := _inDpiChange b;
     _title := _title b; _minimized := f |}.

(** ** Calls that leave the wrapper *)

Inductive Event :=
| EvDefWindowProc (window : HWND) (message : UINT) (wparam : WPARAM) (lparam : LPARAM)
| EvPostQuitMessage (nExitCode : Z)
| EvSetWindowTextW (window : HWND) (text : wstring)
| EvPostMessageW (window : HWND) (message : UINT) (wparam : WPARAM) (lparam : LPARAM)
| EvGetWindow (window : HWND) (uCmd : UINT)
| EvSetWindowPos (window insertAfter : HWND) (x y w h : Z) (uFlags : UINT)
| EvGetDpiForWindow (window : HWND)
| EvEnableNonClientDpiScaling (window : HWND)
| EvSetWindowLongPtr (window : HWND) (nIndex : Z) (value : Z)
| EvGetWindowLongPtr (window : HWND) (nIndex : Z)
| EvGetWindowRect (window : HWND)
| EvGetClientRect (window : HWND)
| EvOnResize (width height : UINT)
| EvOnMinimize
| EvOnRestore.

(** A call is recorded with the fields of the instance on whose behalf it is
    made, as they are at the moment of the call: this is what the callee, or
    a message it delivers re-entrantly, can observe.  A call made by the
    static window procedure for a window without instance has none. *)
Record Call := { call_event : Event; call_this : option BaseWindow }.

Definition Trace := list Call.

Definition events (tr : Trace) : list Event := map call_event tr.

(** ** The operating system *)

Record OS := {
  os_DefWindowProc : Trace -> HWND -> UINT -> WPARAM -> LPARAM -> LRESULT;
  os_GetWindow : Trace -> HWND -> UINT -> HWND;
  os_GetDpiForWindow : Trace -> HWND -> Z;
  os_GetWindowRect : Trace -> HWND -> RECT;
  os_GetClientRect : Trace -> HWND -> RECT;
  (* the RECT that [lparam] of WM_DPICHANGED points to *)
  os_RECT_at : Trace -> LPARAM -> RECT;
  (* [lpCreateParams] of the CREATESTRUCT that [lparam] of WM_NCCREATE points to *)
  os_lpCreateParams_at : Trace -> LPARAM -> Z
}.

(** ** The monad of instance methods *)

Definition M (A : Type) : Type := BaseWindow -> Trace -> A * BaseWindow * Trace.

#[global] Instance M_ret : MRet M := fun A a this tr => (a, this, tr).
#[global] Instance M_bind : MBind M := fun A B f m this tr =>
  let '(a, this', tr') := m this tr in f a this' tr'.

(** Reading a field, writing the fields. *)
Definition gets {A} (f : BaseWindow -> A) : M A := fun this tr => (f this, this, tr).
Definition modify (f : BaseWindow -> BaseWindow) : M unit := fun this tr => (tt, f this, tr).

(** A call that leaves the wrapper: the answer is computed from the history
    before the call, then the call is appended to the trace. *)
Definition call {A} (ev : Event) (answer : Trace -> A) : M A :=
  fun this tr => (answer tr, this, tr ++ [{| call_event := ev; call_this := Some this |}]).

(** The calls a computation adds to a trace. *)
Definition calls_during {A} (m : M A) (this : BaseWindow) (tr : Trace) : Trace :=
  drop (length tr) (snd (m this tr)).
Definition result_of {A} (m : M A) (this : BaseWindow) (tr : Trace) : A :=
  fst (fst (m this tr)).
Definition fields_after {A} (m : M A) (this : BaseWindow) (tr : Trace) : BaseWindow :=
  snd (fst (m this tr)).

(** The NUL-terminated string a [const wchar_t*] obtained from [c_str()]
    designates: the code units before the first NUL. *)
Fixpoint c_str (s : wstring) : wstring :=
  match s with
  | [] => []
  | c :: r => if c =? 0 then [] else c :: c_str r
  end.

Section Methods.

Variable os : OS.

(** *** Operating-system calls and hooks *)

Definition DefWindowProc (window : HWND) (message : UINT) (wparam : WPARAM) (lparam : LPARAM) : M LRESULT :=
  call (EvDefWindowProc window message wparam lparam)
       (fun tr => os_DefWindowProc os tr window message wparam lparam).
Definition PostQuitMessage (nExitCode : Z) : M unit :=
  call (EvPostQuitMessage nExitCode) (fun _ => tt).
Definition SetWindowTextW (window : HWND) (lpString : wstring) : M unit :=
  call (EvSetWindowTextW window lpString) (fun _ => tt).
Definition PostMessageW (window : HWND) (message : UINT) (wparam : WPARAM) (lparam : LPARAM) : M unit :=
  call (EvPostMessageW window message wparam lparam) (fun _ => tt).
Definition GetWindow (window : HWND) (uCmd : UINT) : M HWND :=
  call (EvGetWindow window uCmd) (fun tr => os_GetWindow os tr window uCmd).
Definition SetWindowPos (window insertAfter : HWND) (x y w h : Z) (uFlags : UINT) : M unit :=
  call (EvSetWindowPos window insertAfter x y w h uFlags) (fun _ => tt).
Definition GetDpiForWindow (window : HWND) : M UINT :=
  call (EvGetDpiForWindow window) (fun tr => to_UINT (os_GetDpiForWindow os tr window)).
Definition GetWindowRect_ (window : HWND) : M RECT :=
  call (EvGetWindowRect window) (fun tr => os_GetWindowRect os tr window).
Definition GetClientRect (window : HWND) : M RECT :=
  call (EvGetClientRect window) (fun tr => os_GetClientRect os tr window).

Definition OnResize (width height : UINT) : M unit :=
  call (EvOnResize width height) (fun _ => tt).
Definition OnMinimize : M unit := call EvOnMinimize (fun _ => tt).
Definition OnRestore : M unit := call EvOnRestore (fun _ => tt).

(** [*reinterpret_cast<RECT*>(lParam)] *)
Definition RECT_at (lParam : LPARAM) : M RECT :=
  fun this tr => (os_RECT_at os tr lParam, this, tr).

(** *** BaseWindow::HandleDpiChange *)
Definition HandleDpiChange (hWnd : HWND) (wParam : WPARAM) (lParam : LPARAM) : M LRESULT :=
  modify (set_inDpiChange true);;
  hWndStatic ← GetWindow hWnd GW_CHILD;
  (if negb (hWndStatic =? 0) then
     let uDpi := HIWORD wParam in
     lprcNewScale ← RECT_at lParam;
     SetWindowPos hWnd 0 (left lprcNewScale) (top lprcNewScale)
                  (to_LONG (right lprcNewScale - left lprcNewScale))
                  (to_LONG (bottom lprcNewScale - top lprcNewScale))
                  (Z.lor SWP_NOZORDER SWP_NOACTIVATE);;
     modify (set_currentDpi uDpi)
   else mret tt);;
  modify (set_inDpiChange false);;
  mret 0.

(** *** BaseWindow::MessageHandler *)
Definition MessageHandler (message : UINT) (wparam : WPARAM) (lparam : LPARAM) : M LRESULT :=
  if message =? WM_DPICHANGED then
    window ← gets _window;
    HandleDpiChange window wparam lparam
  else if message =? WM_DESTROY then
    PostQuitMessage 0;;
    mret 0
  else
    (if message =? WM_SIZE then
       let width := LOWORD lparam in
       let height := HIWORD lparam in
       if (wparam =? SIZE_MAXIMIZED) || (wparam =? SIZE_RESTORED) then
         minimized ← gets _minimized;
         (if (minimized : bool) then
            modify (set_minimized false);;
            OnRestore
          else mret tt);;
         OnResize width height
       else if wparam =? SIZE_MINIMIZED then
         minimized ← gets _minimized;
         if negb (minimized : bool) then
           modify (set_minimized true);;
           OnMinimize
         else mret tt
       else mret tt
     else if message =? CM_UPDATE_TITLE then
       window ← gets _window;
       title ← gets _title;
       SetWindowTextW window (c_str title)
     else mret tt);;
    window ← gets _window;
    DefWindowProc window message wparam lparam.

(** *** The accessors *)

(** [BaseWindow::GetWindowRect] calls the global [::GetWindowRect], here
    [GetWindowRect_]. *)
Definition GetWindowRect : M RECT :=
  window ← gets _window;
  GetWindowRect_ window.

Definition GetHandle : M HWND := gets _window.

Definition GetCurrentDpiScale : M Float32.float :=
  window ← gets _window;
  dpi ← GetDpiForWindow window;
  let scale := Float32.div (Float32.of_Z dpi) (Float32.of_Z USER_DEFAULT_SCREEN_DPI) in
  mret scale.

Definition GetPhysicalSize : M SIZE :=
  window ← gets _window;
  rect ← GetClientRect window;
  let windowsWidth := to_LONG (right rect - left rect) in
  let windowsHeight := to_LONG (bottom rect - top rect) in
  mret {| cx := windowsWidth; cy := windowsHeight |}.

Definition GetLogicalSize (physicalSize : SIZE) : M Size :=
  scale ← GetCurrentDpiScale;
  let logicalWidth := Float32.add (Float32.div (Float32.of_Z (cx physicalSize)) scale) Float32.half in
  let logicalHeigth := Float32.add (Float32.div (Float32.of_Z (cy physicalSize)) scale) Float32.half in
  mret {| Width := logicalWidth; Height := logicalHeigth |}.

(** The overload without argument. *)
Definition GetLogicalSize0 : M Size :=
  physicalSize ← GetPhysicalSize;
  GetLogicalSize physicalSize.

(** *** BaseWindow::UpdateTitle *)
Definition UpdateTitle (newTitle : wstring) : M unit :=
  modify (set_title newTitle);;
  window ← gets _window;
  PostMessageW window CM_UPDATE_TITLE 0 0.

End Methods.

(** ** The static window procedure *)

(** The instances, by address, the user data of the windows, by handle and
    index, and the trace. *)
Record World := {
  heap : gmap Z BaseWindow;
  userdata : gmap (Z * Z) Z;
  trace : Trace
}.

Inductive assertion :=
| Assert_window          (* WINRT_ASSERT(window) *)
| Assert_that            (* WINRT_ASSERT(that) *)
| Assert_not_that_window (* WINRT_ASSERT(!that->_window) *).

(** How a call of [WndProc] ends: it returns, an assertion fails, or it
    dereferences a non-null pointer that designates no instance. *)
Inductive outcome :=
| Returned (r : LRESULT) (w : World)
| AssertFailed (a : assertion) (w : World)
| WildPointer (w : World).

Definition world_of (o : outcome) : World :=
  match o with
  | Returned _ w | AssertFailed _ w | WildPointer w => w
  end.

Definition log (ev : Event) (this : option BaseWindow) (tr : Trace) : Trace :=
  tr ++ [{| call_event := ev; call_this := this |}].

(** [GetWindowLongPtr]: the value stored for the window at the index, [0]
    when none was stored. *)
Definition GetWindowLongPtr (window : HWND) (nIndex : Z) (w : World) : Z * World :=
  (default 0 (userdata w !! (window, nIndex)),
   {| heap := heap w; userdata := userdata w;
      trace := log (EvGetWindowLongPtr window nIndex) None (trace w) |}).

(** *** BaseWindow::GetThisFromHandle *)
Definition GetThisFromHandle (window : HWND) (w : World) : Z * World :=
  GetWindowLongPtr window GWLP_USERDATA w.

Section WndProc.

Variable os : OS.

(** The trailing [return DefWindowProc(window, message, wparam, lparam)]. *)
Definition WndProc_default (that : option BaseWindow)
    (window : HWND) (message : UINT) (wparam : WPARAM) (lparam : LPARAM) (w : World) : outcome :=
  Returned (os_DefWindowProc os (trace w) window message wparam lparam)
           {| heap := heap w; userdata := userdata w;
              trace := log (EvDefWindowProc window message wparam lparam) that (trace w) |}.

(** *** BaseWindow::WndProc

    [WINRT_ASSERT] is taken in its checked meaning: a failed assertion ends
    the call.  After [WINRT_ASSERT(!that->_window)] the handle that
    [that->_window = wil::unique_hwnd(window)] replaces is null, so the
    assignment releases nothing.  [that->MessageHandler] is the handler of
    this class. *)
Definition WndProc (window : HWND) (message : UINT) (wparam : WPARAM) (lparam : LPARAM)
    (w : World) : outcome :=
  if window =? 0 then AssertFailed Assert_window w else
  if WM_NCCREATE =? message then
    let cs := lparam in
    let that := os_lpCreateParams_at os (trace w) cs in
    if that =? 0 then AssertFailed Assert_that w else
    match heap w !! that with
    | None => WildPointer w
    | Some obj =>
        if negb (_window obj =? 0) then AssertFailed Assert_not_that_window w else
        let obj1 := set_window window obj in
        let tr1 := log (EvSetWindowLongPtr window GWLP_USERDATA that) (Some obj1) (trace w) in
        let tr2 := log (EvEnableNonClientDpiScaling window) (Some obj1) tr1 in
        let dpi := to_UINT (os_GetDpiForWindow os tr2 window) in
        let tr3 := log (EvGetDpiForWindow window) (Some obj1) tr2 in
        let obj2 := set_currentDpi dpi obj1 in
        WndProc_default (Some obj2) window message wparam lparam
          {| heap := <[that := obj2]> (heap w);
             userdata := <[(window, GWLP_USERDATA) := that]> (userdata w);
             trace := tr3 |}
    end
  else
    let '(that, w1) := GetThisFromHandle window w in
    if negb (that =? 0) then
      match heap w1 !! that with
      | None => WildPointer w1
      | Some obj =>
          let '(r, obj', tr') := MessageHandler os message wparam lparam obj (trace w1) in
          Returned r {| heap := <[that := obj']> (heap w1); userdata := userdata w1; trace := tr' |}
      end
    else
      WndProc_default None window message wparam lparam w1.

End WndProc.

(** ** Delivering a sequence of messages to one instance

    The message loop is the operating system's; what reaches an instance is
    a succession of calls of its [MessageHandler], each starting from the
    fields and the trace the one before left. *)

Record MSG := { message : UINT; wParam : WPARAM; lParam : LPARAM }.

Fixpoint deliver (os : OS) (msgs : list MSG) (this : BaseWindow) (tr : Trace) : BaseWindow * Trace :=
  match msgs with
  | [] => (this, tr)
  | m :: rest =>
      let '(_, this', tr') := MessageHandler os (message m) (wParam m) (lParam m) this tr in
      deliver os rest this' tr'
  end.

(** ** Vocabulary of the properties *)

(** An operating system whose answers do not vary: every window has the
    given DPI and the given child, the default window procedure returns
    [def], every rectangle is [rc] and every CREATESTRUCT carries [params]. *)
Definition os_fixed (dpi : Z) (child : HWND) (def : LRESULT) (rc : RECT) (params : Z) : OS :=
  {| os_DefWindowProc := fun _ _ _ _ _ => def;
     os_GetWindow := fun _ _ _ => child;
     os_GetDpiForWindow := fun _ _ => dpi;
     os_GetWindowRect := fun _ _ => rc;
     os_GetClientRect := fun _ _ => rc;
     os_RECT_at := fun _ _ => rc;
     os_lpCreateParams_at := fun _ _ => params |}.

Definition a_call (ev : Event) (this : BaseWindow) : Call :=
  {| call_event := ev; call_this := Some this |}.

(** The integer a float is, when it is finite and integral. *)
Definition integer_value (f : Float32.float) : option Z :=
  match Float32.to_Q f with
  | Some q => if Qeq_bool q (inject_Z (Qfloor q)) then Some (Qfloor q) else None
  | None => None
  end.

(** The specification's reading of the logical dimension: the floor of
    [physical / s + 0.5], for a finite non-zero scale [s]. *)
Definition floor_rounded (physical : Z) (s : Float32.float) : option Z :=
  match Float32.to_Q s with
  | Some q => if Qeq_bool q 0 then None
              else Some (Qfloor (inject_Z physical / q + (1 # 2)))
  | None => None
  end.

Definition GetLogicalSize_is_floor_rounded (os : OS) (this : BaseWindow) (tr : Trace)
    (physicalSize : SIZE) : Prop :=
  let s := result_of (GetCurrentDpiScale os) this tr in
  let logical := result_of (GetLogicalSize os physicalSize) this tr in
  integer_value (Width logical) = floor_rounded (cx physicalSize) s /\
  integer_value (Height logical) = floor_rounded (cy physicalSize) s.

(** The arguments of the [OnResize] calls among some events, in order. *)
Fixpoint OnResize_calls (evs : list Event) : list (UINT * UINT) :=
  match evs with
  | [] => []
  | EvOnResize width height :: rest => (width, height) :: OnResize_calls rest
  | _ :: rest => OnResize_calls rest
  end.

(** [hooks_alternate last evs]: among [evs], no [OnMinimize] follows an
    [OnMinimize] without an [OnRestore] in between, and the other way
    round; [last] is the hook that came before [evs], if any ([true] for
    [OnMinimize], [false] for [OnRestore]). *)
Fixpoint hooks_alternate (last : option bool) (evs : list Event) : bool :=
  match evs with
  | [] => true
  | EvOnMinimize :: rest =>
      match last with
      | Some true => false
      | _ => hooks_alternate (Some true) rest
      end
  | EvOnRestore :: rest =>
      match last with
      | Some false => false
      | _ => hooks_alternate (Some false) rest
      end
  | _ :: rest => hooks_alternate last rest
  end.

(** The last minimize/restore hook among [evs], [last] when there is none. *)
Fixpoint last_hook (last : option bool) (evs : list Event) : option bool :=
  match evs with
  | [] => last
  | EvOnMinimize :: rest => last_hook (Some true) rest
  | EvOnRestore :: rest => last_hook (Some false) rest
  | _ :: rest => last_hook last rest
  end.

(** The flag agrees with the last hook that fired. *)
Definition flag_tracks (minimized : bool) (last : option bool) : Prop :=
  match last with
  | Some b => minimized = b
  | None => True
  end.

Definition is_SetWindowPos (ev : Event) : bool :=
  match ev with EvSetWindowPos _ _ _ _ _ _ _ => true | _ => false end.
Definition is_DefWindowProc (ev : Event) : bool :=
  match ev with EvDefWindowProc _ _ _ _ => true | _ => false end.

(** Every call of the trace was made while [_inDpiChange] was set. *)
Definition made_in_DpiChange (tr : Trace) : Prop :=
  Forall (fun c => _inDpiChange <$> call_this c = Some true) tr.

(** No instance of the store is in the middle of a DPI change. *)
Definition quiescent (w : World) : Prop :=
  map_Forall (fun _ obj => _inDpiChange obj = false) (heap w).

(** What [MessageHandler] leaves behind for WM_SIZE with SIZE_RESTORED or
    SIZE_MAXIMIZED, and the hooks it calls before the default procedure. *)
Definition shown_fields (this : BaseWindow) : BaseWindow :=
  if _minimized this then set_minimized false this else this.
Definition shown_calls (lparam : LPARAM) (this : BaseWindow) : Trace :=
  (if _minimized this then [a_call EvOnRestore (shown_fields this)] else [])
  ++ [a_call (EvOnResize (LOWORD lparam) (HIWORD lparam)) (shown_fields this)].

(** The same for WM_SIZE with SIZE_MINIMIZED. *)
Definition hidden_fields (this : BaseWindow) : BaseWindow :=
  if _minimized this then this else set_minimized true this.
Definition hidden_calls (this : BaseWindow) : Trace :=
  if _minimized this then [] else [a_call EvOnMinimize (hidden_fields this)].

(** The same for [HandleDpiChange], given the child window and the
    rectangle the operating system answered. *)
Definition dpi_fields (child : HWND) (wParam : WPARAM) (this : BaseWindow) : BaseWindow :=
  set_inDpiChange false (if child =? 0 then this else set_currentDpi (HIWORD wParam) this).
Definition dpi_calls (rc : RECT) (child : HWND) (hWnd : HWND) (this : BaseWindow) : Trace :=
  a_call (EvGetWindow hWnd GW_CHILD) (set_inDpiChange true this)
  :: (if child =? 0 then []
      else [a_call (EvSetWindowPos hWnd 0 (left rc) (top rc)
                      (to_LONG (right rc - left rc)) (to_LONG (bottom rc - top rc))
                      (Z.lor SWP_NOZORDER SWP_NOACTIVATE))
                   (set_inDpiChange true this)]).

(** A method keeps [_inDpiChange] clear when it finds it clear. *)
Definition keeps_quiescent {A} (m : M A) : Prop :=
  forall this tr, _inDpiChange this = false -> _inDpiChange (fields_after m this tr) = false.

(** The specification's reading of CM_UPDATE_TITLE: the native window text
    is set to the cached title itself. *)
Definition sets_text_to_cached_title (os : OS) (this : BaseWindow) (tr : Trace)
    (wparam : WPARAM) (lparam : LPARAM) : Prop :=
  In (EvSetWindowTextW (_window this) (_title this))
     (events (calls_during (MessageHandler os CM_UPDATE_TITLE wparam lparam) this tr)).

(** ** Vocabulary of the further properties *)

(** The calls a sequence of messages adds to a trace. *)
Definition delivered (os : OS) (msgs : list MSG) (this : BaseWindow) (tr : Trace) : Trace :=
  drop (length tr) (snd (deliver os msgs this tr)).

(** The messages on which [OnResize] is due, and its arguments. *)
Definition is_shown_size (m : MSG) : bool :=
  (message m =? WM_SIZE) && ((wParam m =? SIZE_MAXIMIZED) || (wParam m =? SIZE_RESTORED)).
Definition resize_args (m : MSG) : UINT * UINT := (LOWORD (lParam m), HIWORD (lParam m)).

(** The two-state automaton of the minimized flag. *)
Definition minimized_step (minimized : bool) (m : MSG) : bool :=
  if message m =? WM_SIZE then
    if (wParam m =? SIZE_MAXIMIZED) || (wParam m =? SIZE_RESTORED) then false
    else if wParam m =? SIZE_MINIMIZED then true
    else minimized
  else minimized.
Definition minimized_after (minimized : bool) (msgs : list MSG) : bool :=
  fold_left minimized_step msgs minimized.

(** The messages that reach the default window procedure. *)
Definition reaches_default (m : MSG) : bool :=
  negb (message m =? WM_DPICHANGED) && negb (message m =? WM_DESTROY).
Definition default_call (window : HWND) (m : MSG) : Event :=
  EvDefWindowProc window (message m) (wParam m) (lParam m).

(** The window a call is made on, for the calls that take one. *)
Definition event_window (ev : Event) : option HWND :=
  match ev with
  | EvDefWindowProc h _ _ _ | EvSetWindowTextW h _ | EvPostMessageW h _ _ _
  | EvGetWindow h _ | EvSetWindowPos h _ _ _ _ _ _ | EvGetDpiForWindow h
  | EvEnableNonClientDpiScaling h | EvSetWindowLongPtr h _ _ | EvGetWindowLongPtr h _
  | EvGetWindowRect h | EvGetClientRect h => Some h
  | EvPostQuitMessage _ | EvOnResize _ _ | EvOnMinimize | EvOnRestore => None
  end.

(** The calls that only ask the operating system something. *)
Definition is_query (ev : Event) : bool :=
  match ev with
  | EvGetWindow _ _ | EvGetDpiForWindow _ | EvGetWindowLongPtr _ _
  | EvGetWindowRect _ | EvGetClientRect _ => true
  | _ => false
  end.

Definition is_SetWindowTextW (ev : Event) : bool :=
  match ev with EvSetWindowTextW _ _ => true | _ => false end.

(** The distance of a float from a rational, when the float is finite. *)
Definition within (eps : Q) (f : Float32.float) (exact : Q) : bool :=
  match Float32.to_Q f with
  | Some q => Qle_bool (Qabs (q - exact)) eps
  | None => false
  end.

(** The exact value of the formula of [GetLogicalSize]. *)
Definition logical_formula (physical dpi : Z) : Q :=
  (inject_Z physical * inject_Z USER_DEFAULT_SCREEN_DPI / inject_Z dpi + (1 # 2))%Q.

(** The logical width the single-precision computation gives. *)
Definition logical_width (dpi physical : Z) : Float32.float :=
  let scale := Float32.div (Float32.of_Z (to_UINT dpi)) (Float32.of_Z USER_DEFAULT_SCREEN_DPI) in
  Float32.add (Float32.div (Float32.of_Z physical) scale) Float32.half.

(** The DPIs of the scale factors 125%, 150%, 175% and 200%. *)
Definition standard_dpis : list Z := [120; 144; 168; 192].

(** What a call made by [MessageHandler] tells about the message it
    handles; the calls it never makes tell [False]. *)
Definition caused_by (message : UINT) (wparam : WPARAM) (lparam : LPARAM) (ev : Event) : Prop :=
  match ev with
  | EvOnResize _ _ | EvOnMinimize | EvOnRestore => message = WM_SIZE
  | EvPostQuitMessage code => message = WM_DESTROY /\ code = 0
  | EvSetWindowTextW _ _ => message = CM_UPDATE_TITLE
  | EvGetWindow _ uCmd => message = WM_DPICHANGED /\ uCmd = GW_CHILD
  | EvSetWindowPos _ insertAfter _ _ _ _ uFlags =>
      message = WM_DPICHANGED /\ insertAfter = 0 /\ uFlags = 0x0014
  | EvDefWindowProc _ msg wp lp =>
      msg = message /\ wp = wparam /\ lp = lparam /\
      message <> WM_DPICHANGED /\ message <> WM_DESTROY
  | EvPostMessageW _ _ _ _ | EvGetDpiForWindow _ | EvEnableNonClientDpiScaling _
  | EvSetWindowLongPtr _ _ _ | EvGetWindowLongPtr _ _
  | EvGetWindowRect _ | EvGetClientRect _ => False
  end.

(** What [GetLogicalSize] gives for a window whose DPI is 0. *)
Definition logical_at_zero_dpi (physical : Z) : Float32.float :=
  if physical =? 0 then S754_nan else S754_infinity (physical <? 0).

(** A succession of calls of the window procedure for one window, as the
    message loop makes them; it ends at the first call that does not
    return.  [r] is the result of the last call so far. *)
Fixpoint pump (os : OS) (window : HWND) (msgs : list MSG) (r : LRESULT) (w : World) : outcome :=
  match msgs with
  | [] => Returned r w
  | m :: rest =>
      match WndProc os window (message m) (wParam m) (lParam m) w with
      | Returned r' w' => pump os window rest r' w'
      | failed => failed
      end
  end.

(** ** Running the methods *)

Ltac run_M :=
  unfold HandleDpiChange, GetLogicalSize0, GetLogicalSize, GetPhysicalSize, GetCurrentDpiScale,
    GetWindowRect, GetHandle, UpdateTitle, RECT_at,
    DefWindowProc, PostQuitMessage, SetWindowTextW, PostMessageW, GetWindow, SetWindowPos,
    GetDpiForWindow, GetWindowRect_, GetClientRect, OnResize, OnMinimize, OnRestore,
    mbind, M_bind, mret, M_ret, gets, modify, call.
Ltac norm_trace := rewrite <- ?app_assoc; cbn [app].

Section Behaviour.

Variable os : OS.

Lemma MessageHandler_WM_SIZE_shown wparam lparam this tr :
  wparam = SIZE_RESTORED \/ wparam = SIZE_MAXIMIZED ->
  MessageHandler os WM_SIZE wparam lparam this tr =
    (os_DefWindowProc os (tr ++ shown_calls lparam this) (_window this) WM_SIZE wparam lparam,
     shown_fields this,
     tr ++ shown_calls lparam this
        ++ [a_call (EvDefWindowProc (_window this) WM_SIZE wparam lparam) (shown_fields this)]).
Proof.
  intros [-> | ->]; unfold MessageHandler, shown_calls, shown_fields;
    cbn -[LOWORD HIWORD]; run_M; destruct (_minimized this);
    cbn -[LOWORD HIWORD]; norm_trace; reflexivity.
Qed.

Lemma MessageHandler_WM_SIZE_minimized lparam this tr :
  MessageHandler os WM_SIZE SIZE_MINIMIZED lparam this tr =
    (os_DefWindowProc os (tr ++ hidden_calls this) (_window this) WM_SIZE SIZE_MINIMIZED lparam,
     hidden_fields this,
     tr ++ hidden_calls this
        ++ [a_call (EvDefWindowProc (_window this) WM_SIZE SIZE_MINIMIZED lparam) (hidden_fields this)]).
Proof.
  unfold MessageHandler, hidden_calls, hidden_fields;
    cbn -[LOWORD HIWORD]; run_M; destruct (_minimized this);
    cbn -[LOWORD HIWORD]; norm_trace; rewrite ?app_nil_r; reflexivity.
Qed.

Lemma MessageHandler_WM_SIZE_other wparam lparam this tr :
  wparam <> SIZE_RESTORED -> wparam <> SIZE_MAXIMIZED -> wparam <> SIZE_MINIMIZED ->
  MessageHandler os WM_SIZE wparam lparam this tr =
    (os_DefWindowProc os tr (_window this) WM_SIZE wparam lparam, this,
     tr ++ [a_call (EvDefWindowProc (_window this) WM_SIZE wparam lparam) this]).
Proof.
  intros H0 H2 H1. unfold MessageHandler. cbn -[LOWORD HIWORD].
  apply Z.eqb_neq in H0, H1, H2. rewrite H0, H1, H2. reflexivity.
Qed.

Lemma MessageHandler_WM_DESTROY wparam lparam this tr :
  MessageHandler os WM_DESTROY wparam lparam this tr =
    (0, this, tr ++ [a_call (EvPostQuitMessage 0) this]).
Proof. reflexivity. Qed.

Lemma MessageHandler_WM_DPICHANGED wparam lparam this tr :
  MessageHandler os WM_DPICHANGED wparam lparam this tr =
    HandleDpiChange os (_window this) wparam lparam this tr.
Proof. reflexivity. Qed.

Lemma MessageHandler_CM_UPDATE_TITLE wparam lparam this tr :
  MessageHandler os CM_UPDATE_TITLE wparam lparam this tr =
    (os_DefWindowProc os
       (tr ++ [a_call (EvSetWindowTextW (_window this) (c_str (_title this))) this])
       (_window this) CM_UPDATE_TITLE wparam lparam,
     this,
     tr ++ [a_call (EvSetWindowTextW (_window this) (c_str (_title this))) this;
            a_call (EvDefWindowProc (_window this) CM_UPDATE_TITLE wparam lparam) this]).
Proof. unfold MessageHandler. cbn. run_M. norm_trace. reflexivity. Qed.

Lemma MessageHandler_unhandled message wparam lparam this tr :
  message <> WM_DPICHANGED -> message <> WM_DESTROY ->
  message <> WM_SIZE -> message <> CM_UPDATE_TITLE ->
  MessageHandler os message wparam lparam this tr =
    (os_DefWindowProc os tr (_window this) message wparam lparam, this,
     tr ++ [a_call (EvDefWindowProc (_window this) message wparam lparam) this]).
Proof.
  intros H1 H2 H3 H4. unfold MessageHandler.
  apply Z.eqb_neq in H1, H2, H3, H4. rewrite H1, H2, H3, H4. reflexivity.
Qed.

Lemma HandleDpiChange_run hWnd wParam lParam this tr :
  let child := os_GetWindow os tr hWnd GW_CHILD in
  let rc := os_RECT_at os
              (tr ++ [a_call (EvGetWindow hWnd GW_CHILD) (set_inDpiChange true this)]) lParam in
  HandleDpiChange os hWnd wParam lParam this tr =
    (0, dpi_fields child wParam this, tr ++ dpi_calls rc child hWnd this).
Proof.
  intros child rc. unfold dpi_fields, dpi_calls. run_M. fold child.
  destruct (child =? 0); cbn -[HIWORD to_LONG Z.lor]; norm_trace; reflexivity.
Qed.

End Behaviour.

(** *** The handlers on some messages *)

Example restored_from_minimized :
  MessageHandler (os_fixed 96 0 33 {| left := 0; top := 0; right := 0; bottom := 0 |} 0)
    WM_SIZE SIZE_MAXIMIZED 0x01000200 (set_minimized true (set_window 7 BaseWindow_init)) [] =
  (33, set_window 7 BaseWindow_init,
   [a_call EvOnRestore (set_window 7 BaseWindow_init);
    a_call (EvOnResize 512 256) (set_window 7 BaseWindow_init);
    a_call (EvDefWindowProc 7 WM_SIZE SIZE_MAXIMIZED 0x01000200) (set_window 7 BaseWindow_init)]).
Proof. reflexivity. Qed.

Example minimized_twice :
  events (snd (deliver (os_fixed 96 0 0 {| left := 0; top := 0; right := 0; bottom := 0 |} 0)
                 [ {| message := WM_SIZE; wParam := SIZE_MINIMIZED; lParam := 0 |};
                   {| message := WM_SIZE; wParam := SIZE_MINIMIZED; lParam := 0 |} ]
                 BaseWindow_init [])) =
  [EvOnMinimize; EvDefWindowProc 0 WM_SIZE SIZE_MINIMIZED 0;
   EvDefWindowProc 0 WM_SIZE SIZE_MINIMIZED 0].
Proof. reflexivity. Qed.

Example dpi_changed_with_child :
  let this := set_currentDpi 96 (set_window 7 BaseWindow_init) in
  MessageHandler (os_fixed 96 9 0 {| left := 10; top := 20; right := 810; bottom := 620 |} 0)
    WM_DPICHANGED 0x00900090 4096 this [] =
  (0, set_currentDpi 144 this,
   [a_call (EvGetWindow 7 GW_CHILD) (set_inDpiChange true this);
    a_call (EvSetWindowPos 7 0 10 20 800 600 0x0014) (set_inDpiChange true this)]).
Proof. reflexivity. Qed.

Example created_then_minimized :
  let os := os_fixed 120 0 0 {| left := 0; top := 0; right := 0; bottom := 0 |} 4096 in
  let w0 := {| heap := {[ 4096 := BaseWindow_init ]}; userdata := ∅; trace := [] |} in
  let w1 := world_of (WndProc os 7 WM_NCCREATE 0 1000 w0) in
  let w2 := world_of (WndProc os 7 WM_SIZE SIZE_MINIMIZED 0 w1) in
  heap w2 !! 4096 = Some (set_minimized true (set_currentDpi 120 (set_window 7 BaseWindow_init))) /\
  events (trace w2) =
    [EvSetWindowLongPtr 7 GWLP_USERDATA 4096; EvEnableNonClientDpiScaling 7; EvGetDpiForWindow 7;
     EvDefWindowProc 7 WM_NCCREATE 0 1000;
     EvGetWindowLongPtr 7 GWLP_USERDATA; EvOnMinimize; EvDefWindowProc 7 WM_SIZE SIZE_MINIMIZED 0].
Proof. split; reflexivity. Qed.

(** ** Single-precision arithmetic at scale 1 *)

Section Float32_facts.

Lemma digits2_pos_bounds (p : positive) :
  2 ^ (Zpos (digits2_pos p) - 1) <= Zpos p < 2 ^ Zpos (digits2_pos p).
Proof.
  induction p as [p IH | p IH |]; cbn [digits2_pos]; [| |cbn; lia].
  all: rewrite Pos2Z.inj_succ;
    replace (Z.succ (Zpos (digits2_pos p)) - 1) with (Zpos (digits2_pos p)) by lia;
    rewrite Z.pow_succ_r by lia;
    replace (2 ^ Zpos (digits2_pos p)) with (2 * 2 ^ (Zpos (digits2_pos p) - 1)) in *
      by (rewrite <- Z.pow_succ_r by lia; f_equal; lia);
    lia.
Qed.

Lemma digits2_pos_small (p : positive) :
  Zpos p < 2 ^ 23 -> 1 <= Zpos (digits2_pos p) <= 23.
Proof.
  intros H. pose proof (digits2_pos_bounds p) as [Hlo _].
  split; [lia|].
  destruct (Z_le_gt_dec (Zpos (digits2_pos p)) 23) as [|Hgt]; [assumption|exfalso].
  assert (2 ^ 23 <= 2 ^ (Zpos (digits2_pos p) - 1)) by (apply Z.pow_le_mono_r; lia).
  lia.
Qed.

Lemma div_eucl_pow2 (a : Z) : Z.div_eucl (2 ^ 24 * a) (2 ^ 23) = (2 * a, 0).
Proof.
  pose proof (Z.div_eucl_eq (2 ^ 24 * a) (2 ^ 23) ltac:(lia)) as E.
  pose proof (Z.mod_pos_bound (2 ^ 24 * a) (2 ^ 23) ltac:(lia)) as B.
  unfold Z.modulo in B. destruct (Z.div_eucl (2 ^ 24 * a) (2 ^ 23)) as [q r].
  f_equal; lia.
Qed.

Lemma iter_pos_Pos_iter {A} (f : A -> A) (k : positive) : forall x,
  SpecFloat.iter_pos f k x = Pos.iter f x k.
Proof.
  induction k as [k IH | k IH |]; intros x; cbn [SpecFloat.iter_pos Pos.iter].
  - rewrite !IH. rewrite <- !Pos.iter_swap. reflexivity.
  - rewrite !IH. reflexivity.
  - reflexivity.
Qed.

Lemma digits2_pos_shift (m k : positive) :
  digits2_pos (Pos.iter xO m k) = (digits2_pos m + k)%positive.
Proof.
  induction k as [|k IH] using Pos.peano_ind.
  - cbn. rewrite Pos.add_1_r. reflexivity.
  - rewrite Pos.iter_succ. cbn [digits2_pos]. rewrite IH, Pos.add_succ_r. reflexivity.
Qed.

Lemma shr_exact (m k : positive) :
  SpecFloat.iter_pos shr_1 k {| shr_m := Zpos (Pos.iter xO m k); shr_r := false; shr_s := false |}
  = {| shr_m := Zpos m; shr_r := false; shr_s := false |}.
Proof.
  rewrite iter_pos_Pos_iter.
  induction k as [|k IH] using Pos.peano_ind.
  - reflexivity.
  - rewrite Pos.iter_succ_r. rewrite Pos.iter_succ. cbn [shr_1 orb]. exact IH.
Qed.

Lemma Zpos_shift (m k : positive) : Zpos (Pos.iter xO m k) = Zpos m * 2 ^ Zpos k.
Proof.
  induction k as [|k IH] using Pos.peano_ind.
  - cbn. lia.
  - rewrite Pos.iter_succ, Pos2Z.inj_xO, IH, Pos2Z.inj_succ, Z.pow_succ_r by lia. lia.
Qed.

(** Rounding leaves a 24-digit mantissa with an exponent in range as it is. *)
Lemma binary_round_aux_canonical (s : bool) (m : positive) (e : Z) :
  digits2_pos m = 24%positive -> -149 <= e <= 104 ->
  binary_round_aux 24 128 s (Zpos m) e loc_Exact = S754_finite s m e.
Proof.
  intros Hd He. unfold binary_round_aux, shr_fexp. cbn [Zdigits2]. rewrite Hd.
  replace (fexp 24 128 (24 + e) - e) with 0 by (unfold fexp, emin; lia).
  cbn [shr shr_record_of_loc loc_of_shr_record round_nearest_even shr_m Zdigits2].
  rewrite Hd.
  replace (fexp 24 128 (24 + e) - e) with 0 by (unfold fexp, emin; lia).
  cbn [shr shr_m shr_record_of_loc].
  replace (e <=? 128 - 24) with true by (symmetry; apply Z.leb_le; lia).
  reflexivity.
Qed.

(** Rounding brings a 24-digit mantissa followed by [k] zeros back to it. *)
Lemma binary_round_aux_shift (s : bool) (m k : positive) (e : Z) :
  digits2_pos m = 24%positive -> -149 <= e <= 104 ->
  binary_round_aux 24 128 s (Zpos (Pos.iter xO m k)) (e - Zpos k) loc_Exact = S754_finite s m e.
Proof.
  intros Hd He. unfold binary_round_aux, shr_fexp. cbn [Zdigits2].
  rewrite digits2_pos_shift, Hd.
  replace (fexp 24 128 (Zpos (24 + k) + (e - Zpos k)) - (e - Zpos k)) with (Zpos k)
    by (unfold fexp, emin; lia).
  cbn [shr shr_record_of_loc]. rewrite shr_exact.
  cbn [loc_of_shr_record round_nearest_even shr_m Zdigits2 shr_record_of_loc].
  replace (e - Zpos k + Zpos k) with e by lia. rewrite Hd.
  replace (fexp 24 128 (24 + e) - e) with 0 by (unfold fexp, emin; lia).
  cbn [shr shr_m shr_record_of_loc].
  replace (e <=? 128 - 24) with true by (symmetry; apply Z.leb_le; lia).
  reflexivity.
Qed.

(** Dividing a normal number by 1 gives it back. *)
Lemma div_one (s : bool) (m : positive) (e : Z) :
  digits2_pos m = 24%positive -> -148 <= e <= 104 ->
  Float32.div (S754_finite s m e) Float32.one = S754_finite s m e.
Proof.
  intros Hd He. unfold Float32.div, Float32.one, SFdiv, SFdiv_core_binary.
  cbn [Zdigits2]. rewrite Hd.
  change (Zpos (digits2_pos 8388608)) with 24.
  replace (Z.min (fexp Float32.prec Float32.emax (24 + e - (24 + -23))) (e - -23)) with (e - 1)
    by (unfold fexp, emin, Float32.prec, Float32.emax; lia).
  replace (e - -23 - (e - 1)) with 24 by lia.
  rewrite Z.shiftl_mul_pow2 by lia.
  rewrite (Z.mul_comm (Zpos m)). rewrite div_eucl_pow2.
  change (2 * Zpos m) with (Zpos (Pos.iter xO m 1)).
  change (new_location 8388608 0) with loc_Exact.
  rewrite xorb_false_r.
  change Float32.prec with 24. change Float32.emax with 128.
  apply binary_round_aux_shift; [exact Hd | lia].
Qed.

(** A positive integer below 2^23 converts to its normalised mantissa. *)
Lemma of_Z_small (p : positive) :
  Zpos p < 2 ^ 23 ->
  Float32.of_Z (Zpos p) =
    S754_finite false (Pos.iter xO p (24 - digits2_pos p)) (Zpos (digits2_pos p) - 24).
Proof.
  intros H. pose proof (digits2_pos_small p H) as Hd.
  unfold Float32.of_Z, binary_normalize, binary_round.
  replace (fexp Float32.prec Float32.emax (Zpos (digits2_pos p) + 0))
    with (Zneg (24 - digits2_pos p))
    by (unfold fexp, emin, Float32.prec, Float32.emax; lia).
  unfold shl_align. rewrite Z.sub_0_r.
  change Float32.prec with 24. change Float32.emax with 128.
  rewrite binary_round_aux_canonical; [f_equal; lia | | lia].
  rewrite digits2_pos_shift. lia.
Qed.

Lemma half_sum (p : positive) :
  Zpos (Pos.iter xO p 24) + Zpos 8388608 = Zpos (Pos.iter xO (xI p) 23).
Proof. reflexivity. Qed.

(** At scale 1, [physical / scale + 0.5f] is the physical size plus one
    half, exactly, for every positive size below 2^23. *)
Lemma unit_scale_exact (p : positive) :
  Zpos p < 2 ^ 23 ->
  exists q,
    Float32.to_Q (Float32.add (Float32.div (Float32.of_Z (Zpos p)) Float32.one) Float32.half)
      = Some q /\
    (q == inject_Z (Zpos p) + (1 # 2))%Q.
Proof.
  intros H. pose proof (digits2_pos_small p H) as Hd.
  rewrite of_Z_small by exact H.
  rewrite div_one; [| rewrite digits2_pos_shift; lia | lia].
  set (d := digits2_pos p) in *.
  unfold Float32.add, Float32.half, SFadd.
  replace (Z.min (Zpos d - 24) (-24)) with (-24) by lia.
  unfold shl_align at 1 2.
  replace (-24 - (Zpos d - 24)) with (Zneg d) by lia.
  change (-24 - -24) with 0. cbn [fst cond_Zopp].
  rewrite <- Pos.iter_add.
  replace (d + (24 - d))%positive with 24%positive by lia.
  rewrite half_sum.
  unfold binary_normalize, binary_round, shl_align.
  rewrite digits2_pos_shift. cbn [digits2_pos]. fold d.
  replace (fexp Float32.prec Float32.emax (Zpos (Pos.succ d + 23) + -24) - -24) with (Zpos d)
    by (unfold fexp, emin, Float32.prec, Float32.emax; lia).
  change Float32.prec with 24. change Float32.emax with 128.
  destruct (Z.eq_dec (Zpos d) 23) as [E23 | N23].
  - replace (-24) with (-1 - Zpos 23) by lia.
    rewrite binary_round_aux_shift; [| cbn [digits2_pos]; fold d; lia | lia].
    eexists. split; [reflexivity|].
    unfold Qeq, Qplus, inject_Z. cbn [Qnum Qden]. lia.
  - replace (Pos.iter xO (xI p) 23) with (Pos.iter xO (Pos.iter xO (xI p) (23 - d)) d)
      by (rewrite <- Pos.iter_add; f_equal; lia).
    replace (-24) with ((Zpos d - 24) - Zpos d) by lia.
    rewrite binary_round_aux_shift;
      [| rewrite digits2_pos_shift; cbn [digits2_pos]; fold d; lia | lia].
    replace (Zpos d - 24) with (Zneg (24 - d)) by lia.
    eexists. split; [reflexivity|].
    unfold Qeq, Qplus, inject_Z. cbn [Qnum Qden].
    rewrite Zpos_shift. rewrite Pos2Z.inj_pow.
    replace (Zpos (24 - d)) with (Z.succ (Zpos (23 - d))) by lia.
    rewrite Z.pow_succ_r by lia. lia.
Qed.

End Float32_facts.

(** ** The logical size *)

Example GetLogicalSize_100x50_at_96dpi :
  let logical := result_of (GetLogicalSize (os_fixed 96 0 0 {| left := 0; top := 0; right := 0; bottom := 0 |} 0)
                              {| cx := 100; cy := 50 |}) BaseWindow_init [] in
  Float32.to_Q (Width logical) = Some (13172736 # 131072)%Q /\
  Float32.to_Q (Height logical) = Some (13238272 # 262144)%Q.
Proof. split; reflexivity. Qed.

Example GetLogicalSize_1920x1080_at_144dpi :
  let logical := result_of (GetLogicalSize (os_fixed 144 0 0 {| left := 0; top := 0; right := 0; bottom := 0 |} 0)
                              {| cx := 1920; cy := 1080 |}) BaseWindow_init [] in
  option_map Qred (Float32.to_Q (Width logical)) = Some (2561 # 2)%Q /\
  option_map Qred (Float32.to_Q (Height logical)) = Some (1441 # 2)%Q.
Proof. split; reflexivity. Qed.

(** At the default DPI the scale is 1 and the logical size of every
    positive physical size below 2^23 is that size plus one half in each
    dimension, exactly. *)
Lemma GetLogicalSize_at_default_dpi (os : OS) (this : BaseWindow) (tr : Trace) (physicalSize : SIZE) :
  to_UINT (os_GetDpiForWindow os tr (_window this)) = USER_DEFAULT_SCREEN_DPI ->
  0 < cx physicalSize < 2 ^ 23 -> 0 < cy physicalSize < 2 ^ 23 ->
  let logical := result_of (GetLogicalSize os physicalSize) this tr in
  exists w h,
    Float32.to_Q (Width logical) = Some w /\ Float32.to_Q (Height logical) = Some h /\
    (w == inject_Z (cx physicalSize) + (1 # 2))%Q /\
    (h == inject_Z (cy physicalSize) + (1 # 2))%Q.
Proof.
  intros Hdpi Hx Hy logical. subst logical.
  unfold result_of. run_M. cbn [fst Width Height]. rewrite Hdpi.
  change (Float32.div (Float32.of_Z USER_DEFAULT_SCREEN_DPI) (Float32.of_Z USER_DEFAULT_SCREEN_DPI))
    with Float32.one.
  destruct physicalSize as [x y]. cbn [cx cy] in *.
  destruct x as [|px|px]; try lia. destruct y as [|py|py]; try lia.
  destruct (unit_scale_exact px (proj2 Hx)) as (w & Hw & Ew).
  destruct (unit_scale_exact py (proj2 Hy)) as (h & Hh & Eh).
  exists w, h. auto.
Qed.

(** So there neither logical dimension is an integer. *)
Lemma half_integer_not_integer (f : Float32.float) (q : Q) (n : Z) :
  Float32.to_Q f = Some q -> (q == inject_Z n + (1 # 2))%Q -> integer_value f = None.
Proof.
  intros Hf Eq. unfold integer_value. rewrite Hf.
  destruct (Qeq_bool q (inject_Z (Qfloor q))) eqn:E; [exfalso | reflexivity].
  apply Qeq_bool_iff in E. rewrite E in Eq.
  unfold Qeq, Qplus, inject_Z in Eq. cbn [Qnum Qden] in Eq. lia.
Qed.

Lemma GetLogicalSize_at_default_dpi_not_integer (os : OS) (this : BaseWindow) (tr : Trace)
    (physicalSize : SIZE) :
  to_UINT (os_GetDpiForWindow os tr (_window this)) = USER_DEFAULT_SCREEN_DPI ->
  0 < cx physicalSize < 2 ^ 23 -> 0 < cy physicalSize < 2 ^ 23 ->
  integer_value (Width (result_of (GetLogicalSize os physicalSize) this tr)) = None /\
  integer_value (Height (result_of (GetLogicalSize os physicalSize) this tr)) = None.
Proof.
  intros Hdpi Hx Hy.
  destruct (GetLogicalSize_at_default_dpi os this tr physicalSize Hdpi Hx Hy)
    as (w & h & Hw & Hh & Ew & Eh).
  split; eapply half_integer_not_integer; eauto.
Qed.

(** C1, as the specification states it, fails: at 96 DPI the scale is 1, the
    physical size 100 x 50 gives the logical size 100.5 x 50.5, while
    floor(100/1 + 0.5) = 100 and floor(50/1 + 0.5) = 50. *)
Lemma C1_floor_rounded_counterexample :
  let os := os_fixed 96 0 0 {| left := 0; top := 0; right := 0; bottom := 0 |} 0 in
  let physicalSize := {| cx := 100; cy := 50 |} in
  let s := result_of (GetCurrentDpiScale os) BaseWindow_init [] in
  let logical := result_of (GetLogicalSize os physicalSize) BaseWindow_init [] in
  option_map Qred (Float32.to_Q (Width logical)) = Some (201 # 2)%Q /\
  option_map Qred (Float32.to_Q (Height logical)) = Some (101 # 2)%Q /\
  floor_rounded 100 s = Some 100 /\
  floor_rounded 50 s = Some 50 /\
  ~ GetLogicalSize_is_floor_rounded os BaseWindow_init [] physicalSize.
Proof.
  cbv zeta. do 4 (split; [reflexivity|]).
  intros [H _]. vm_compute in H. discriminate H.
Qed.

(** C1, amended: for every physical size and the scale [s] that
    [GetCurrentDpiScale] returns, [GetLogicalSize] returns the
    single-precision values [cx / s + 0.5f] and [cy / s + 0.5f] themselves;
    no floor is applied to them.  In particular, at the default DPI no
    positive size below 2^23 has an integral logical width or height. *)
Theorem C1_GetLogicalSize_unrounded (os : OS) (this : BaseWindow) (tr : Trace) (physicalSize : SIZE) :
  let s := result_of (GetCurrentDpiScale os) this tr in
  let logical := result_of (GetLogicalSize os physicalSize) this tr in
  Width logical = Float32.add (Float32.div (Float32.of_Z (cx physicalSize)) s) Float32.half /\
  Height logical = Float32.add (Float32.div (Float32.of_Z (cy physicalSize)) s) Float32.half /\
  (to_UINT (os_GetDpiForWindow os tr (_window this)) = USER_DEFAULT_SCREEN_DPI ->
   0 < cx physicalSize < 2 ^ 23 -> 0 < cy physicalSize < 2 ^ 23 ->
   integer_value (Width logical) = None /\ integer_value (Height logical) = None).
Proof.
  split; [reflexivity|]. split; [reflexivity|].
  apply GetLogicalSize_at_default_dpi_not_integer.
Qed.

Lemma C1_GetLogicalSize_unrounded_witness :
  let os := os_fixed 96 0 0 {| left := 0; top := 0; right := 0; bottom := 0 |} 0 in
  let logical := result_of (GetLogicalSize os {| cx := 1920; cy := 1080 |}) BaseWindow_init [] in
  integer_value (Width logical) = None /\ integer_value (Height logical) = None.
Proof.
  cbv zeta.
  apply (proj2 (proj2 (C1_GetLogicalSize_unrounded
                  (os_fixed 96 0 0 {| left := 0; top := 0; right := 0; bottom := 0 |} 0)
                  BaseWindow_init [] {| cx := 1920; cy := 1080 |})));
    [reflexivity | cbn; lia | cbn; lia].
Defined.

(** C2: [GetCurrentDpiScale] asks the operating system for the window's DPI
    and returns it divided by USER_DEFAULT_SCREEN_DPI, and [GetLogicalSize]
    computes each dimension as [physical / scale + 0.5] with that scale; both
    leave the fields alone and make the one call [GetDpiForWindow].  At the
    default DPI the single-precision result is the value of the formula,
    [physical + 1/2], for every positive size below 2^23. *)
Theorem C2_GetLogicalSize_linear_formula (os : OS) (this : BaseWindow) (tr : Trace) (physicalSize : SIZE) :
  let dpi := to_UINT (os_GetDpiForWindow os tr (_window this)) in
  let scale := Float32.div (Float32.of_Z dpi) (Float32.of_Z USER_DEFAULT_SCREEN_DPI) in
  let asked := tr ++ [a_call (EvGetDpiForWindow (_window this)) this] in
  GetCurrentDpiScale os this tr = (scale, this, asked) /\
  GetLogicalSize os physicalSize this tr =
    ({| Width := Float32.add (Float32.div (Float32.of_Z (cx physicalSize)) scale) Float32.half;
        Height := Float32.add (Float32.div (Float32.of_Z (cy physicalSize)) scale) Float32.half |},
     this, asked) /\
  (dpi = USER_DEFAULT_SCREEN_DPI ->
   0 < cx physicalSize < 2 ^ 23 -> 0 < cy physicalSize < 2 ^ 23 ->
   let logical := result_of (GetLogicalSize os physicalSize) this tr in
   exists w h,
     Float32.to_Q (Width logical) = Some w /\ Float32.to_Q (Height logical) = Some h /\
     (w == inject_Z (cx physicalSize) + (1 # 2))%Q /\
     (h == inject_Z (cy physicalSize) + (1 # 2))%Q).
Proof.
  split; [reflexivity|]. split; [reflexivity|].
  apply GetLogicalSize_at_default_dpi.
Qed.

Lemma C2_GetLogicalSize_linear_formula_witness :
  let os := os_fixed 96 0 0 {| left := 0; top := 0; right := 0; bottom := 0 |} 0 in
  let logical := result_of (GetLogicalSize os {| cx := 1920; cy := 1080 |}) BaseWindow_init [] in
  exists w h,
    Float32.to_Q (Width logical) = Some w /\ Float32.to_Q (Height logical) = Some h /\
    (w == inject_Z 1920 + (1 # 2))%Q /\ (h == inject_Z 1080 + (1 # 2))%Q.
Proof.
  cbv zeta.
  apply (proj2 (proj2 (C2_GetLogicalSize_linear_formula
                  (os_fixed 96 0 0 {| left := 0; top := 0; right := 0; bottom := 0 |} 0)
                  BaseWindow_init [] {| cx := 1920; cy := 1080 |})));
    [reflexivity | cbn; lia | cbn; lia].
Defined.

(** ** Dispatch of the messages *)

(** C3: for WM_SIZE with SIZE_RESTORED or SIZE_MAXIMIZED, [MessageHandler]
    calls [OnResize] exactly once, with LOWORD(lparam) and HIWORD(lparam),
    whatever [_minimized] was; with SIZE_MINIMIZED it does not call it. *)
Theorem C3_OnResize_once (os : OS) (this : BaseWindow) (tr : Trace) (lparam : LPARAM) :
  OnResize_calls (events (calls_during (MessageHandler os WM_SIZE SIZE_RESTORED lparam) this tr))
    = [(LOWORD lparam, HIWORD lparam)] /\
  OnResize_calls (events (calls_during (MessageHandler os WM_SIZE SIZE_MAXIMIZED lparam) this tr))
    = [(LOWORD lparam, HIWORD lparam)] /\
  OnResize_calls (events (calls_during (MessageHandler os WM_SIZE SIZE_MINIMIZED lparam) this tr))
    = [].
Proof.
  unfold calls_during.
  rewrite !MessageHandler_WM_SIZE_shown by (auto).
  rewrite MessageHandler_WM_SIZE_minimized.
  cbn [snd]. rewrite !drop_app_length.
  unfold shown_calls, hidden_calls.
  destruct (_minimized this); repeat split; reflexivity.
Qed.

(** C7: for WM_DESTROY, [MessageHandler] calls [PostQuitMessage(0)] and
    nothing else (in particular not the default window procedure), returns
    0 and leaves every field as it was. *)
Theorem C7_WM_DESTROY (os : OS) (this : BaseWindow) (tr : Trace) (wparam : WPARAM) (lparam : LPARAM) :
  MessageHandler os WM_DESTROY wparam lparam this tr =
    (0, this, tr ++ [a_call (EvPostQuitMessage 0) this]).
Proof. apply MessageHandler_WM_DESTROY. Qed.

(** ** The minimized flag *)

Lemma hooks_alternate_app (evs1 evs2 : list Event) : forall last,
  hooks_alternate last (evs1 ++ evs2) =
    hooks_alternate last evs1 && hooks_alternate (last_hook last evs1) evs2.
Proof.
  induction evs1 as [|ev evs1 IH]; intros last; [reflexivity|].
  destruct ev; cbn [app hooks_alternate last_hook]; try apply IH;
    destruct last as [[|]|]; try apply IH; reflexivity.
Qed.

Lemma last_hook_app (evs1 evs2 : list Event) : forall last,
  last_hook last (evs1 ++ evs2) = last_hook (last_hook last evs1) evs2.
Proof.
  induction evs1 as [|ev evs1 IH]; intros last; [reflexivity|].
  destruct ev; cbn [app last_hook]; apply IH.
Qed.

(** Every message falls under one of the cases of the two [switch]es. *)
Lemma message_cases (message : UINT) (wparam : WPARAM) :
  message = WM_DPICHANGED \/ message = WM_DESTROY \/ message = CM_UPDATE_TITLE \/
  (message = WM_SIZE /\ (wparam = SIZE_RESTORED \/ wparam = SIZE_MAXIMIZED)) \/
  (message = WM_SIZE /\ wparam = SIZE_MINIMIZED) \/
  (message = WM_SIZE /\
     wparam <> SIZE_RESTORED /\ wparam <> SIZE_MAXIMIZED /\ wparam <> SIZE_MINIMIZED) \/
  (message <> WM_DPICHANGED /\ message <> WM_DESTROY /\
     message <> WM_SIZE /\ message <> CM_UPDATE_TITLE).
Proof.
  unfold WM_DPICHANGED, WM_DESTROY, CM_UPDATE_TITLE, WM_USER, WM_SIZE,
    SIZE_RESTORED, SIZE_MAXIMIZED, SIZE_MINIMIZED. lia.
Qed.

(** One message: the calls are appended to the trace, the hooks among them
    respect the flag, and the flag follows them. *)
Lemma MessageHandler_hooks (os : OS) message wparam lparam this tr :
  exists r this' new,
    MessageHandler os message wparam lparam this tr = (r, this', tr ++ new) /\
    (forall last, flag_tracks (_minimized this) last ->
       hooks_alternate last (events new) = true /\
       flag_tracks (_minimized this') (last_hook last (events new))) /\
    (In EvOnMinimize (events new) -> _minimized this = false /\ _minimized this' = true) /\
    (In EvOnRestore (events new) -> _minimized this = true /\ _minimized this' = false).
Proof.
  destruct (message_cases message wparam)
    as [-> | [-> | [-> | [[-> Hw] | [[-> ->] | [[-> (H0 & H2 & H1)] | (H1 & H2 & H3 & H4)]]]]]].
  - rewrite MessageHandler_WM_DPICHANGED, HandleDpiChange_run.
    do 3 eexists; split; [reflexivity|].
    unfold dpi_calls, dpi_fields.
    destruct (os_GetWindow os tr (_window this) GW_CHILD =? 0); cbn;
      (split; [intros last Hl; split; [reflexivity | exact Hl] | split; intros H; decompose [or] H; try discriminate; contradiction]).
  - rewrite MessageHandler_WM_DESTROY. do 3 eexists; split; [reflexivity|]. cbn.
    split; [intros last Hl; split; [reflexivity | exact Hl] | split; intros H; decompose [or] H; try discriminate; contradiction].
  - rewrite MessageHandler_CM_UPDATE_TITLE. do 3 eexists; split; [reflexivity|]. cbn.
    split; [intros last Hl; split; [reflexivity | exact Hl] | split; intros H; decompose [or] H; try discriminate; contradiction].
  - rewrite MessageHandler_WM_SIZE_shown by exact Hw.
    do 3 eexists; split; [reflexivity|].
    unfold shown_calls, shown_fields. destruct (_minimized this) eqn:E; cbn.
    + split; [intros [[|]|] Hl; cbn in *; try discriminate; auto |].
      split; intros H; decompose [or] H; try discriminate; try contradiction; auto.
    + split; [intros last Hl; rewrite E; split; [reflexivity | exact Hl] |].
      split; intros H; decompose [or] H; try discriminate; contradiction.
  - rewrite MessageHandler_WM_SIZE_minimized.
    do 3 eexists; split; [reflexivity|].
    unfold hidden_calls, hidden_fields. destruct (_minimized this) eqn:E; cbn.
    + split; [intros last Hl; rewrite E; split; [reflexivity | exact Hl] |].
      split; intros H; decompose [or] H; try discriminate; contradiction.
    + split; [intros [[|]|] Hl; cbn in *; try discriminate; auto |].
      split; intros H; decompose [or] H; try discriminate; try contradiction; auto.
  - rewrite MessageHandler_WM_SIZE_other by assumption.
    do 3 eexists; split; [reflexivity|]. cbn.
    split; [intros last Hl; split; [reflexivity | exact Hl] | split; intros H; decompose [or] H; try discriminate; contradiction].
  - rewrite MessageHandler_unhandled by assumption.
    do 3 eexists; split; [reflexivity|]. cbn.
    split; [intros last Hl; split; [reflexivity | exact Hl] | split; intros H; decompose [or] H; try discriminate; contradiction].
Qed.

(** A sequence of messages: the same, by induction on the sequence. *)
Lemma deliver_hooks (os : OS) (msgs : list MSG) : forall this tr last,
  flag_tracks (_minimized this) last ->
  exists this' new,
    deliver os msgs this tr = (this', tr ++ new) /\
    hooks_alternate last (events new) = true /\
    flag_tracks (_minimized this') (last_hook last (events new)).
Proof.
  induction msgs as [|m msgs IH]; intros this tr last Hl.
  - exists this, []. rewrite app_nil_r. auto.
  - cbn [deliver].
    destruct (MessageHandler_hooks os (message m) (wParam m) (lParam m) this tr)
      as (r & this1 & new1 & -> & Hstep & _).
    destruct (Hstep last Hl) as [Halt1 Hl1].
    destruct (IH this1 (tr ++ new1) _ Hl1) as (this2 & new2 & -> & Halt2 & Hl2).
    exists this2, (new1 ++ new2). rewrite <- app_assoc. split; [reflexivity|].
    unfold events in *. rewrite map_app, hooks_alternate_app, last_hook_app, Halt1, Halt2.
    auto.
Qed.

(** C4: [OnMinimize] is called only when [_minimized] was false, and then
    the flag is true afterwards; [OnRestore] only when it was true, and
    then it is false afterwards.  Hence, over every sequence of messages
    delivered to [MessageHandler], the two hooks alternate, and the flag
    agrees with the last one that fired. *)
Theorem C4_minimized_tracks_transitions (os : OS) :
  (forall message wparam lparam this tr,
     let evs := events (calls_during (MessageHandler os message wparam lparam) this tr) in
     let this' := fields_after (MessageHandler os message wparam lparam) this tr in
     (In EvOnMinimize evs -> _minimized this = false /\ _minimized this' = true) /\
     (In EvOnRestore evs -> _minimized this = true /\ _minimized this' = false)) /\
  (forall msgs this tr,
     let evs := events (drop (length tr) (snd (deliver os msgs this tr))) in
     hooks_alternate None evs = true /\
     flag_tracks (_minimized (fst (deliver os msgs this tr))) (last_hook None evs)).
Proof.
  split.
  - intros message wparam lparam this tr.
    destruct (MessageHandler_hooks os message wparam lparam this tr)
      as (r & this1 & new1 & E & _ & Hmin & Hres).
    unfold calls_during, fields_after. rewrite E. cbn [fst snd].
    rewrite drop_app_length. auto.
  - intros msgs this tr.
    destruct (deliver_hooks os msgs this tr None I) as (this' & new & E & Halt & Hl).
    rewrite E. cbn [fst snd]. rewrite drop_app_length. auto.
Qed.

Lemma C4_minimized_tracks_transitions_witness :
  let os := os_fixed 96 0 0 {| left := 0; top := 0; right := 0; bottom := 0 |} 0 in
  let m := MessageHandler os WM_SIZE SIZE_MINIMIZED 0 in
  In EvOnMinimize (events (calls_during m BaseWindow_init [])) /\
  _minimized BaseWindow_init = false /\
  _minimized (fields_after m BaseWindow_init []) = true.
Proof.
  cbv zeta.
  assert (H : In EvOnMinimize
                (events (calls_during
                   (MessageHandler (os_fixed 96 0 0 {| left := 0; top := 0; right := 0; bottom := 0 |} 0)
                      WM_SIZE SIZE_MINIMIZED 0) BaseWindow_init [])))
    by (left; reflexivity).
  split; [exact H|].
  exact (proj1 (proj1 (C4_minimized_tracks_transitions _) WM_SIZE SIZE_MINIMIZED 0 BaseWindow_init []) H).
Defined.

(** ** Falling back to the default window procedure *)

(** C5: for every message other than WM_DPICHANGED and WM_DESTROY,
    [MessageHandler] ends with the one call of [DefWindowProc] on the
    window handle and the unmodified message, wparam and lparam, and
    returns what it answers; [WndProc] does the same for a window in whose
    user data no instance pointer is registered, and on WM_NCCREATE, once
    the instance is registered, it too returns what the default window
    procedure answers on the unmodified arguments. *)
Theorem C5_default_window_procedure (os : OS) :
  (forall message wparam lparam this tr,
     message <> WM_DPICHANGED -> message <> WM_DESTROY ->
     exists this' before,
       MessageHandler os message wparam lparam this tr =
         (os_DefWindowProc os (tr ++ before) (_window this) message wparam lparam,
          this',
          tr ++ before ++ [a_call (EvDefWindowProc (_window this) message wparam lparam) this']) /\
       _window this' = _window this /\
       forallb (fun ev => negb (is_DefWindowProc ev)) (events before) = true) /\
  (forall (window : HWND) (message : UINT) (wparam : WPARAM) (lparam : LPARAM) (w : World),
     window <> 0 -> message <> WM_NCCREATE ->
     default 0 (userdata w !! (window, GWLP_USERDATA)) = 0 ->
     let asked := log (EvGetWindowLongPtr window GWLP_USERDATA) None (trace w) in
     WndProc os window message wparam lparam w =
       Returned (os_DefWindowProc os asked window message wparam lparam)
         {| heap := heap w; userdata := userdata w;
            trace := log (EvDefWindowProc window message wparam lparam) None asked |}) /\
  (forall (window : HWND) (wparam : WPARAM) (lparam : LPARAM) (w : World) r w',
     WndProc os window WM_NCCREATE wparam lparam w = Returned r w' ->
     exists tr that,
       r = os_DefWindowProc os tr window WM_NCCREATE wparam lparam /\
       trace w' = log (EvDefWindowProc window WM_NCCREATE wparam lparam) that tr).
Proof.
  split.
  - intros message wparam lparam this tr Hdpi Hdestroy.
    destruct (message_cases message wparam)
      as [-> | [-> | [-> | [[-> Hw] | [[-> ->] | [[-> (H0 & H2 & H1)] | (H1 & H2 & H3 & H4)]]]]]];
      try congruence.
    + rewrite MessageHandler_CM_UPDATE_TITLE.
      exists this, [a_call (EvSetWindowTextW (_window this) (c_str (_title this))) this].
      repeat split; reflexivity.
    + rewrite MessageHandler_WM_SIZE_shown by exact Hw.
      exists (shown_fields this), (shown_calls lparam this).
      unfold shown_calls, shown_fields. destruct (_minimized this); repeat split; reflexivity.
    + rewrite MessageHandler_WM_SIZE_minimized.
      exists (hidden_fields this), (hidden_calls this).
      unfold hidden_calls, hidden_fields. destruct (_minimized this); repeat split; reflexivity.
    + rewrite MessageHandler_WM_SIZE_other by assumption.
      exists this, []. rewrite app_nil_r. repeat split; reflexivity.
    + rewrite MessageHandler_unhandled by assumption.
      exists this, []. rewrite app_nil_r. repeat split; reflexivity.
  - split.
    + intros window message wparam lparam w Hwin Hmsg Hnone asked.
      unfold WndProc, GetThisFromHandle, GetWindowLongPtr.
      apply Z.eqb_neq in Hwin. rewrite Hwin.
      assert (Hm : (WM_NCCREATE =? message) = false) by (apply Z.eqb_neq; congruence).
      rewrite Hm, Hnone. reflexivity.
    + intros window wparam lparam w r w'. unfold WndProc.
      destruct (window =? 0); [discriminate|].
      cbn [Z.eqb WM_NCCREATE Pos.eqb].
      destruct (os_lpCreateParams_at os (trace w) lparam =? 0); [discriminate|].
      destruct (heap w !! os_lpCreateParams_at os (trace w) lparam) as [obj|]; [|discriminate].
      destruct (negb (_window obj =? 0)); [discriminate|].
      unfold WndProc_default. cbn [trace heap userdata].
      intros [= <- <-]. cbn [trace]. eauto.
Qed.

Lemma C5_default_window_procedure_witness :
  let os := os_fixed 96 0 42 {| left := 0; top := 0; right := 0; bottom := 0 |} 0 in
  result_of (MessageHandler os CM_UPDATE_TITLE 0 0) BaseWindow_init [] = 42 /\
  WndProc os 7 WM_SIZE 0 0 {| heap := ∅; userdata := ∅; trace := [] |} =
    Returned 42 {| heap := ∅; userdata := ∅;
                   trace := [ {| call_event := EvGetWindowLongPtr 7 GWLP_USERDATA; call_this := None |};
                              {| call_event := EvDefWindowProc 7 WM_SIZE 0 0; call_this := None |} ] |}.
Proof.
  cbv zeta. split.
  - destruct (proj1 (C5_default_window_procedure
                       (os_fixed 96 0 42 {| left := 0; top := 0; right := 0; bottom := 0 |} 0))
                CM_UPDATE_TITLE 0 0 BaseWindow_init [] ltac:(discriminate) ltac:(discriminate))
      as (this' & before & E & _).
    unfold result_of. rewrite E. reflexivity.
  - apply (proj1 (proj2 (C5_default_window_procedure
                    (os_fixed 96 0 42 {| left := 0; top := 0; right := 0; bottom := 0 |} 0)))
             7 WM_SIZE 0 0 {| heap := ∅; userdata := ∅; trace := [] |});
      [discriminate | discriminate | reflexivity].
Defined.

(** ** Creation *)

(** C6: on WM_NCCREATE, [WndProc] asserts that the instance pointer in
    [lpCreateParams] is not null and that the instance's [_window] is not
    yet set; when either assertion fails nothing has been done.  Only when
    both hold does it store the handle in [_window], register the instance
    pointer in the window's user data, cache the window's DPI in
    [_currentDpi], and then fall through to the default window procedure. *)
Theorem C6_WM_NCCREATE (os : OS) (window : HWND) (wparam : WPARAM) (lparam : LPARAM) (w : World) :
  window <> 0 ->
  let that := os_lpCreateParams_at os (trace w) lparam in
  (that = 0 ->
     WndProc os window WM_NCCREATE wparam lparam w = AssertFailed Assert_that w) /\
  (forall obj, that <> 0 -> heap w !! that = Some obj -> _window obj <> 0 ->
     WndProc os window WM_NCCREATE wparam lparam w = AssertFailed Assert_not_that_window w) /\
  (forall obj, that <> 0 -> heap w !! that = Some obj -> _window obj = 0 ->
     let owned := set_window window obj in
     let tr2 := log (EvEnableNonClientDpiScaling window) (Some owned)
                  (log (EvSetWindowLongPtr window GWLP_USERDATA that) (Some owned) (trace w)) in
     let created := set_currentDpi (to_UINT (os_GetDpiForWindow os tr2 window)) owned in
     let tr3 := log (EvGetDpiForWindow window) (Some owned) tr2 in
     WndProc os window WM_NCCREATE wparam lparam w =
       Returned (os_DefWindowProc os tr3 window WM_NCCREATE wparam lparam)
         {| heap := <[that := created]> (heap w);
            userdata := <[(window, GWLP_USERDATA) := that]> (userdata w);
            trace := log (EvDefWindowProc window WM_NCCREATE wparam lparam) (Some created) tr3 |}) /\
  (forall r w', WndProc os window WM_NCCREATE wparam lparam w = Returned r w' ->
     that <> 0 /\ exists obj, heap w !! that = Some obj /\ _window obj = 0).
Proof.
  intros Hwin that. apply Z.eqb_neq in Hwin.
  unfold WndProc. rewrite Hwin. cbn [Z.eqb WM_NCCREATE Pos.eqb]. fold that.
  repeat split.
  - intros ->. reflexivity.
  - intros obj Hthat Hobj Hset. apply Z.eqb_neq in Hthat, Hset.
    rewrite Hthat, Hobj, Hset. reflexivity.
  - intros obj Hthat Hobj Hunset. apply Z.eqb_neq in Hthat.
    rewrite Hthat, Hobj, Hunset. reflexivity.
  - destruct (that =? 0) eqn:E; [discriminate|]. apply Z.eqb_neq in E. exact E.
  - destruct (that =? 0) eqn:E; [discriminate|].
    destruct (heap w !! that) as [obj|] eqn:Hobj; [|discriminate].
    destruct (_window obj =? 0) eqn:Hunset; [|discriminate].
    exists obj. split; [reflexivity|]. apply Z.eqb_eq. exact Hunset.
Qed.

Lemma C6_WM_NCCREATE_witness :
  let os := os_fixed 144 0 1 {| left := 0; top := 0; right := 0; bottom := 0 |} 4096 in
  let w := {| heap := {[ 4096 := BaseWindow_init ]}; userdata := ∅; trace := [] |} in
  exists r w',
    WndProc os 7 WM_NCCREATE 0 0 w = Returned r w' /\
    heap w' !! 4096 = Some (set_currentDpi 144 (set_window 7 BaseWindow_init)) /\
    userdata w' !! (7, GWLP_USERDATA) = Some 4096.
Proof.
  cbv zeta. do 2 eexists. split.
  - apply (proj1 (proj2 (proj2
      (C6_WM_NCCREATE (os_fixed 144 0 1 {| left := 0; top := 0; right := 0; bottom := 0 |} 4096)
         7 0 0 {| heap := {[ 4096 := BaseWindow_init ]}; userdata := ∅; trace := [] |}
         ltac:(discriminate)))) BaseWindow_init);
      [discriminate | reflexivity | reflexivity].
  - split; reflexivity.
Defined.

(** ** The title *)

Lemma c_str_no_NUL (s : wstring) : Forall (fun c => c <> 0) (c_str s).
Proof.
  induction s as [|c r IH]; cbn [c_str]; [constructor|].
  destruct (c =? 0) eqn:E; constructor; [apply Z.eqb_neq; exact E | exact IH].
Qed.

Lemma c_str_id (s : wstring) : Forall (fun c => c <> 0) s -> c_str s = s.
Proof.
  induction 1 as [|c r Hc _ IH]; cbn [c_str]; [reflexivity|].
  apply Z.eqb_neq in Hc. rewrite Hc, IH. reflexivity.
Qed.

Lemma c_str_prefix (s : wstring) :
  c_str s = s \/ exists rest, s = c_str s ++ 0 :: rest.
Proof.
  induction s as [|c r IH]; cbn [c_str]; [left; reflexivity|].
  destruct (c =? 0) eqn:E.
  - right. exists r. apply Z.eqb_eq in E. subst c. reflexivity.
  - destruct IH as [-> | [rest Hrest]]; [left; reflexivity|].
    right. exists rest. cbn [app]. rewrite <- Hrest. reflexivity.
Qed.

(** C8, as the specification states it, fails for a title that holds a NUL
    character: after [UpdateTitle] of the three code units 'a', NUL, 'b',
    the handler of CM_UPDATE_TITLE does not set the window text to the
    cached title (it sets it to "a"). *)
Lemma C8_embedded_NUL_counterexample :
  let os := os_fixed 96 0 0 {| left := 0; top := 0; right := 0; bottom := 0 |} 0 in
  let this := fields_after (UpdateTitle [97; 0; 98]) BaseWindow_init [] in
  _title this = [97; 0; 98] /\
  events (calls_during (MessageHandler os CM_UPDATE_TITLE 0 0) this []) =
    [EvSetWindowTextW 0 [97]; EvDefWindowProc 0 CM_UPDATE_TITLE 0 0] /\
  ~ sets_text_to_cached_title os this [] 0 0.
Proof.
  cbv zeta. split; [reflexivity|]. split; [reflexivity|].
  unfold sets_text_to_cached_title. cbn.
  intros [H | [H | []]]; discriminate H.
Qed.

(** C8, amended: [UpdateTitle t] sets [_title] to [t] and posts
    CM_UPDATE_TITLE (with wparam and lparam 0) to the window, changing no
    other field; on CM_UPDATE_TITLE, [MessageHandler] sets the native window
    text to the cached [_title] read as a NUL-terminated string: the whole
    title when it holds no NUL, and otherwise the code units before its
    first NUL. *)
Theorem C8_title (os : OS) (t : wstring) (this : BaseWindow) (tr : Trace)
    (wparam : WPARAM) (lparam : LPARAM) :
  UpdateTitle t this tr =
    (tt, set_title t this,
     tr ++ [a_call (EvPostMessageW (_window this) CM_UPDATE_TITLE 0 0) (set_title t this)]) /\
  MessageHandler os CM_UPDATE_TITLE wparam lparam this tr =
    (os_DefWindowProc os
       (tr ++ [a_call (EvSetWindowTextW (_window this) (c_str (_title this))) this])
       (_window this) CM_UPDATE_TITLE wparam lparam,
     this,
     tr ++ [a_call (EvSetWindowTextW (_window this) (c_str (_title this))) this;
            a_call (EvDefWindowProc (_window this) CM_UPDATE_TITLE wparam lparam) this]) /\
  (Forall (fun c => c <> 0) (_title this) -> c_str (_title this) = _title this) /\
  Forall (fun c => c <> 0) (c_str (_title this)) /\
  (c_str (_title this) = _title this \/
   exists rest, _title this = c_str (_title this) ++ 0 :: rest).
Proof.
  split; [reflexivity|].
  split; [apply MessageHandler_CM_UPDATE_TITLE|].
  split; [apply c_str_id|].
  split; [apply c_str_no_NUL | apply c_str_prefix].
Qed.

Lemma C8_title_witness :
  let this := set_title [104; 105] BaseWindow_init in
  Forall (fun c => c <> 0) (_title this) /\ c_str (_title this) = _title this.
Proof.
  cbv zeta.
  assert (H : Forall (fun c => c <> 0) (_title (set_title [104; 105] BaseWindow_init)))
    by (repeat constructor; discriminate).
  split; [exact H|].
  exact (proj1 (proj2 (proj2
    (C8_title (os_fixed 96 0 0 {| left := 0; top := 0; right := 0; bottom := 0 |} 0)
       [] (set_title [104; 105] BaseWindow_init) [] 0 0))) H).
Defined.

(** ** DPI changes *)

(** C9: when the window has no child, [HandleDpiChange] makes the one call
    [GetWindow(hWnd, GW_CHILD)] and no [SetWindowPos], leaves [_currentDpi]
    and every other field but [_inDpiChange] as they were, and returns 0;
    so does [MessageHandler] on WM_DPICHANGED. *)
Theorem C9_no_child_ignores_dpi_change (os : OS) (hWnd : HWND) (wParam : WPARAM) (lParam : LPARAM)
    (this : BaseWindow) (tr : Trace) :
  os_GetWindow os tr hWnd GW_CHILD = 0 ->
  HandleDpiChange os hWnd wParam lParam this tr =
    (0, set_inDpiChange false this,
     tr ++ [a_call (EvGetWindow hWnd GW_CHILD) (set_inDpiChange true this)]) /\
  (hWnd = _window this ->
   MessageHandler os WM_DPICHANGED wParam lParam this tr =
     (0, set_inDpiChange false this,
      tr ++ [a_call (EvGetWindow hWnd GW_CHILD) (set_inDpiChange true this)])) /\
  let this' := fields_after (HandleDpiChange os hWnd wParam lParam) this tr in
  _currentDpi this' = _currentDpi this /\ _window this' = _window this /\
  _title this' = _title this /\ _minimized this' = _minimized this /\
  forallb (fun ev => negb (is_SetWindowPos ev))
    (events (calls_during (HandleDpiChange os hWnd wParam lParam) this tr)) = true.
Proof.
  intros Hchild.
  assert (E : HandleDpiChange os hWnd wParam lParam this tr =
              (0, set_inDpiChange false this,
               tr ++ [a_call (EvGetWindow hWnd GW_CHILD) (set_inDpiChange true this)])).
  { rewrite HandleDpiChange_run. unfold dpi_fields, dpi_calls. rewrite Hchild. reflexivity. }
  split; [exact E|]. split.
  - intros ->. rewrite MessageHandler_WM_DPICHANGED. exact E.
  - unfold fields_after, calls_during. rewrite E. cbn [fst snd].
    rewrite drop_app_length. repeat split; reflexivity.
Qed.

Lemma C9_no_child_ignores_dpi_change_witness :
  let os := os_fixed 96 0 0 {| left := 10; top := 20; right := 810; bottom := 620 |} 0 in
  let this := set_currentDpi 96 (set_window 7 BaseWindow_init) in
  HandleDpiChange os 7 0x00900090 1234 this [] =
    (0, this, [a_call (EvGetWindow 7 GW_CHILD) (set_inDpiChange true this)]).
Proof.
  cbv zeta.
  exact (proj1 (C9_no_child_ignores_dpi_change
                  (os_fixed 96 0 0 {| left := 10; top := 20; right := 810; bottom := 620 |} 0)
                  7 0x00900090 1234 (set_currentDpi 96 (set_window 7 BaseWindow_init)) []
                  eq_refl)).
Defined.

Lemma shown_fields_inDpiChange this : _inDpiChange (shown_fields this) = _inDpiChange this.
Proof. unfold shown_fields. destruct (_minimized this); reflexivity. Qed.

Lemma hidden_fields_inDpiChange this : _inDpiChange (hidden_fields this) = _inDpiChange this.
Proof. unfold hidden_fields. destruct (_minimized this); reflexivity. Qed.

Lemma MessageHandler_keeps_quiescent (os : OS) message wparam lparam :
  keeps_quiescent (MessageHandler os message wparam lparam).
Proof.
  intros this tr Hq. unfold fields_after.
  destruct (message_cases message wparam)
    as [-> | [-> | [-> | [[-> Hw] | [[-> ->] | [[-> (H0 & H2 & H1)] | (H1 & H2 & H3 & H4)]]]]]].
  - rewrite MessageHandler_WM_DPICHANGED, HandleDpiChange_run. reflexivity.
  - rewrite MessageHandler_WM_DESTROY. exact Hq.
  - rewrite MessageHandler_CM_UPDATE_TITLE. exact Hq.
  - rewrite MessageHandler_WM_SIZE_shown by exact Hw. cbn [fst snd].
    rewrite shown_fields_inDpiChange. exact Hq.
  - rewrite MessageHandler_WM_SIZE_minimized. cbn [fst snd].
    rewrite hidden_fields_inDpiChange. exact Hq.
  - rewrite MessageHandler_WM_SIZE_other by assumption. exact Hq.
  - rewrite MessageHandler_unhandled by assumption. exact Hq.
Qed.

Lemma WndProc_keeps_quiescent (os : OS) window message wparam lparam w :
  quiescent w -> quiescent (world_of (WndProc os window message wparam lparam w)).
Proof.
  intros Hq. unfold WndProc.
  destruct (window =? 0); [exact Hq|].
  destruct (WM_NCCREATE =? message).
  - destruct (os_lpCreateParams_at os (trace w) lparam =? 0); [exact Hq|].
    destruct (heap w !! os_lpCreateParams_at os (trace w) lparam) as [obj|] eqn:Hobj; [|exact Hq].
    destruct (negb (_window obj =? 0)); [exact Hq|].
    unfold quiescent. cbn [world_of WndProc_default heap].
    apply map_Forall_insert_2; [|exact Hq].
    exact (Hq _ _ Hobj).
  - unfold GetThisFromHandle, GetWindowLongPtr.
    destruct (negb (default 0 (userdata w !! (window, GWLP_USERDATA)) =? 0)); [|exact Hq].
    cbn [heap trace userdata].
    destruct (heap w !! default 0 (userdata w !! (window, GWLP_USERDATA))) as [obj|] eqn:Hobj;
      [|exact Hq].
    pose proof (MessageHandler_keeps_quiescent os message wparam lparam obj
                  (log (EvGetWindowLongPtr window GWLP_USERDATA) None (trace w))
                  (Hq _ _ Hobj)) as Hstep.
    unfold fields_after in Hstep.
    destruct (MessageHandler os message wparam lparam obj
                (log (EvGetWindowLongPtr window GWLP_USERDATA) None (trace w)))
      as [[r obj'] tr'].
    unfold quiescent. cbn [world_of heap].
    apply map_Forall_insert_2; [exact Hstep | exact Hq].
Qed.

(** C10: [HandleDpiChange] always returns 0; it sets [_inDpiChange] on
    entry, so that every call it makes is made while the flag is set, and
    clears it before returning.  A new instance has the flag clear, and
    [MessageHandler], the accessors, [UpdateTitle] and the static [WndProc]
    and [GetThisFromHandle] all leave it clear when they find it clear. *)
Theorem C10_inDpiChange_invariant (os : OS) :
  (forall hWnd wParam lParam this tr,
     result_of (HandleDpiChange os hWnd wParam lParam) this tr = 0 /\
     _inDpiChange (fields_after (HandleDpiChange os hWnd wParam lParam) this tr) = false /\
     made_in_DpiChange (calls_during (HandleDpiChange os hWnd wParam lParam) this tr)) /\
  _inDpiChange BaseWindow_init = false /\
  (forall message wparam lparam, keeps_quiescent (MessageHandler os message wparam lparam)) /\
  keeps_quiescent (GetWindowRect os) /\
  keeps_quiescent GetHandle /\
  keeps_quiescent (GetCurrentDpiScale os) /\
  keeps_quiescent (GetPhysicalSize os) /\
  (forall physicalSize, keeps_quiescent (GetLogicalSize os physicalSize)) /\
  keeps_quiescent (GetLogicalSize0 os) /\
  (forall newTitle, keeps_quiescent (UpdateTitle newTitle)) /\
  (forall window w, quiescent w -> quiescent (snd (GetThisFromHandle window w))) /\
  (forall window message wparam lparam w,
     quiescent w -> quiescent (world_of (WndProc os window message wparam lparam w))).
Proof.
  split.
  { intros hWnd wParam lParam this tr.
    unfold result_of, fields_after, calls_during. rewrite HandleDpiChange_run.
    cbn [fst snd]. rewrite drop_app_length.
    split; [reflexivity|]. split; [reflexivity|].
    unfold made_in_DpiChange, dpi_calls.
    destruct (os_GetWindow os tr hWnd GW_CHILD =? 0); repeat constructor. }
  split; [reflexivity|].
  split; [apply MessageHandler_keeps_quiescent|].
  do 4 (split; [intros this tr Hq; exact Hq|]).
  split; [intros physicalSize this tr Hq; exact Hq|].
  split; [intros this tr Hq; exact Hq|].
  split; [intros newTitle this tr Hq; exact Hq|].
  split; [intros window w Hq; exact Hq|].
  intros window message wparam lparam w. apply WndProc_keeps_quiescent.
Qed.

Lemma C10_inDpiChange_invariant_witness :
  let os := os_fixed 96 5 0 {| left := 10; top := 20; right := 810; bottom := 620 |} 0 in
  _inDpiChange BaseWindow_init = false /\
  _inDpiChange (fields_after (MessageHandler os WM_DPICHANGED 0x00900090 1234) BaseWindow_init [])
    = false.
Proof.
  cbv zeta. split; [reflexivity|].
  exact (proj1 (proj2 (proj2 (C10_inDpiChange_invariant
           (os_fixed 96 5 0 {| left := 10; top := 20; right := 810; bottom := 620 |} 0))))
           WM_DPICHANGED 0x00900090 1234 BaseWindow_init [] eq_refl).
Defined.

(** * Further properties *)

(** ** Sequences of messages *)

Ltac by_message_cases message wparam :=
  unfold calls_during, fields_after, result_of;
  let Hw := fresh "Hw" in
  let H0 := fresh "Hrestored" in
  let H1 := fresh "Hminimized" in
  let H2 := fresh "Hmaximized" in
  let Hd := fresh "Hdpi" in
  let Hq := fresh "Hdestroy" in
  let Hs := fresh "Hsize" in
  let Ht := fresh "Htitle" in
  destruct (message_cases message wparam)
    as [-> | [-> | [-> | [[-> Hw] | [[-> ->] | [[-> (H0 & H2 & H1)] | (Hd & Hq & Hs & Ht)]]]]]];
  [ rewrite MessageHandler_WM_DPICHANGED, HandleDpiChange_run
  | rewrite MessageHandler_WM_DESTROY
  | rewrite MessageHandler_CM_UPDATE_TITLE
  | rewrite (MessageHandler_WM_SIZE_shown _ _ _ _ _ Hw)
  | rewrite MessageHandler_WM_SIZE_minimized
  | rewrite MessageHandler_WM_SIZE_other by assumption
  | rewrite MessageHandler_unhandled by assumption ];
  cbn [fst snd]; rewrite ?drop_app_length.

Lemma MessageHandler_appends (os : OS) message wparam lparam this tr :
  snd (MessageHandler os message wparam lparam this tr) =
    tr ++ calls_during (MessageHandler os message wparam lparam) this tr.
Proof.
  destruct (MessageHandler_hooks os message wparam lparam this tr) as (r & this' & new & E & _).
  unfold calls_during. rewrite E. cbn [snd]. rewrite drop_app_length. reflexivity.
Qed.

Lemma deliver_cons (os : OS) (m : MSG) (rest : list MSG) this tr :
  deliver os (m :: rest) this tr =
    deliver os rest
      (fields_after (MessageHandler os (message m) (wParam m) (lParam m)) this tr)
      (tr ++ calls_during (MessageHandler os (message m) (wParam m) (lParam m)) this tr).
Proof.
  cbn [deliver]. rewrite <- MessageHandler_appends. unfold fields_after.
  destruct (MessageHandler os (message m) (wParam m) (lParam m) this tr) as [[r this'] tr'].
  reflexivity.
Qed.

Lemma deliver_appends (os : OS) (msgs : list MSG) this tr :
  snd (deliver os msgs this tr) = tr ++ delivered os msgs this tr.
Proof.
  destruct (deliver_hooks os msgs this tr None I) as (this' & new & E & _).
  unfold delivered. rewrite E. cbn [snd]. rewrite drop_app_length. reflexivity.
Qed.

Lemma delivered_nil (os : OS) this tr : delivered os [] this tr = [].
Proof. unfold delivered. cbn [deliver snd]. apply drop_all. Qed.

Lemma delivered_cons (os : OS) (m : MSG) (rest : list MSG) this tr :
  let handler := MessageHandler os (message m) (wParam m) (lParam m) in
  delivered os (m :: rest) this tr =
    calls_during handler this tr
    ++ delivered os rest (fields_after handler this tr) (tr ++ calls_during handler this tr).
Proof.
  intros handler. unfold delivered at 1. rewrite deliver_cons. fold handler.
  rewrite deliver_appends, <- app_assoc, drop_app_length. reflexivity.
Qed.

Lemma OnResize_calls_app (evs1 evs2 : list Event) :
  OnResize_calls (evs1 ++ evs2) = OnResize_calls evs1 ++ OnResize_calls evs2.
Proof.
  induction evs1 as [|ev evs1 IH]; [reflexivity|].
  destruct ev; cbn [app OnResize_calls]; rewrite IH; reflexivity.
Qed.

Lemma LOWORD_mod (l : Z) : LOWORD l = l mod 2 ^ 16.
Proof. unfold LOWORD. change 0xffff with (Z.ones 16). apply Z.land_ones. lia. Qed.

Lemma HIWORD_mod (l : Z) : HIWORD l = (l / 2 ^ 16) mod 2 ^ 16.
Proof.
  unfold HIWORD. change 0xffff with (Z.ones 16).
  rewrite Z.land_ones, Z.shiftr_div_pow2 by lia. reflexivity.
Qed.

(** One message: the fields it can change. *)
Lemma MessageHandler_frame (os : OS) message wparam lparam this tr :
  let this' := fields_after (MessageHandler os message wparam lparam) this tr in
  _window this' = _window this /\ _title this' = _title this /\
  (message <> WM_DPICHANGED ->
     _currentDpi this' = _currentDpi this /\ _inDpiChange this' = _inDpiChange this) /\
  (message <> WM_SIZE -> _minimized this' = _minimized this).
Proof.
  by_message_cases message wparam;
    unfold dpi_fields, shown_fields, hidden_fields;
    try destruct (os_GetWindow os tr (_window this) GW_CHILD =? 0);
    try destruct (_minimized this) eqn:?;
    cbn; repeat (first [split | intro]); congruence.
Qed.

(** One message: the [OnResize] calls. *)
Lemma MessageHandler_OnResize (os : OS) (m : MSG) this tr :
  OnResize_calls (events (calls_during (MessageHandler os (message m) (wParam m) (lParam m)) this tr))
  = if is_shown_size m then [resize_args m] else [].
Proof.
  unfold is_shown_size, resize_args. destruct m as [msg wp lp]. cbn [message wParam lParam].
  by_message_cases msg wp.
  - unfold dpi_calls. destruct (os_GetWindow os tr (_window this) GW_CHILD =? 0); reflexivity.
  - reflexivity.
  - reflexivity.
  - unfold shown_calls.
    destruct Hw as [-> | ->]; destruct (_minimized this); reflexivity.
  - unfold hidden_calls. destruct (_minimized this); reflexivity.
  - apply Z.eqb_neq in Hrestored, Hmaximized. rewrite Hrestored, Hmaximized. reflexivity.
  - apply Z.eqb_neq in Hsize. rewrite Hsize. reflexivity.
Qed.

(** One message: the flag. *)
Lemma MessageHandler_minimized (os : OS) (m : MSG) this tr :
  _minimized (fields_after (MessageHandler os (message m) (wParam m) (lParam m)) this tr)
  = minimized_step (_minimized this) m.
Proof.
  unfold minimized_step. destruct m as [msg wp lp]. cbn [message wParam lParam].
  by_message_cases msg wp.
  - unfold dpi_fields. destruct (os_GetWindow os tr (_window this) GW_CHILD =? 0); reflexivity.
  - reflexivity.
  - reflexivity.
  - unfold shown_fields.
    destruct Hw as [-> | ->]; destruct (_minimized this) eqn:E; cbn; rewrite ?E; reflexivity.
  - unfold hidden_fields. destruct (_minimized this) eqn:E; cbn; rewrite ?E; reflexivity.
  - apply Z.eqb_neq in Hrestored, Hmaximized, Hminimized.
    rewrite Hrestored, Hmaximized, Hminimized. reflexivity.
  - apply Z.eqb_neq in Hsize. rewrite Hsize. reflexivity.
Qed.

(** One message: the calls of the default window procedure. *)
Lemma MessageHandler_default (os : OS) (m : MSG) this tr :
  List.filter is_DefWindowProc
    (events (calls_during (MessageHandler os (message m) (wParam m) (lParam m)) this tr))
  = if reaches_default m then [default_call (_window this) m] else [].
Proof.
  unfold reaches_default, default_call. destruct m as [msg wp lp]. cbn [message wParam lParam].
  by_message_cases msg wp.
  - unfold dpi_calls. destruct (os_GetWindow os tr (_window this) GW_CHILD =? 0); reflexivity.
  - reflexivity.
  - reflexivity.
  - unfold shown_calls. destruct (_minimized this); reflexivity.
  - unfold hidden_calls. destruct (_minimized this); reflexivity.
  - reflexivity.
  - apply Z.eqb_neq in Hdpi, Hdestroy. rewrite Hdpi, Hdestroy. reflexivity.
Qed.

(** One message: every call that takes a window is made on [_window]. *)
Lemma MessageHandler_own_window (os : OS) message wparam lparam this tr :
  Forall (fun ev => forall h, event_window ev = Some h -> h = _window this)
    (events (calls_during (MessageHandler os message wparam lparam) this tr)).
Proof.
  by_message_cases message wparam;
    unfold dpi_calls, shown_calls, hidden_calls;
    try destruct (os_GetWindow os tr (_window this) GW_CHILD =? 0);
    try destruct (_minimized this);
    cbn; repeat constructor; cbn; intros h; congruence.
Qed.

(** X1: delivering messages never changes [_window] or [_title]; without a
    WM_DPICHANGED among them it changes neither [_currentDpi] nor
    [_inDpiChange], and without a WM_SIZE it does not change [_minimized]. *)
Theorem X1_deliver_frame (os : OS) (msgs : list MSG) (this : BaseWindow) (tr : Trace) :
  let this' := fst (deliver os msgs this tr) in
  _window this' = _window this /\ _title this' = _title this /\
  (Forall (fun m => message m <> WM_DPICHANGED) msgs ->
     _currentDpi this' = _currentDpi this /\ _inDpiChange this' = _inDpiChange this) /\
  (Forall (fun m => message m <> WM_SIZE) msgs -> _minimized this' = _minimized this).
Proof.
  revert this tr. induction msgs as [|m rest IH]; intros this tr.
  - cbn. auto.
  - rewrite deliver_cons.
    destruct (MessageHandler_frame os (message m) (wParam m) (lParam m) this tr)
      as (Hw & Ht & Hd & Hm).
    specialize (IH (fields_after (MessageHandler os (message m) (wParam m) (lParam m)) this tr)
                   (tr ++ calls_during (MessageHandler os (message m) (wParam m) (lParam m)) this tr)).
    cbv zeta in IH. destruct IH as (IHw & IHt & IHd & IHm).
    cbv zeta. rewrite IHw, IHt, Hw, Ht.
    split; [reflexivity|]. split; [reflexivity|]. split.
    + intros Hall. inversion Hall as [|? ? Hhead Htail]; subst.
      destruct (IHd Htail) as [-> ->]. exact (Hd Hhead).
    + intros Hall. inversion Hall as [|? ? Hhead Htail]; subst.
      rewrite (IHm Htail). exact (Hm Hhead).
Qed.

Lemma X1_deliver_frame_witness :
  let os := os_fixed 96 9 0 {| left := 0; top := 0; right := 640; bottom := 480 |} 0 in
  let this := set_currentDpi 96 (set_window 7 BaseWindow_init) in
  let msgs := [ {| message := WM_SIZE; wParam := SIZE_MINIMIZED; lParam := 0 |};
                {| message := CM_UPDATE_TITLE; wParam := 0; lParam := 0 |} ] in
  _currentDpi (fst (deliver os msgs this [])) = 96 /\
  _inDpiChange (fst (deliver os msgs this [])) = false.
Proof.
  cbv zeta.
  apply (proj1 (proj2 (proj2 (X1_deliver_frame
           (os_fixed 96 9 0 {| left := 0; top := 0; right := 640; bottom := 480 |} 0)
           [ {| message := WM_SIZE; wParam := SIZE_MINIMIZED; lParam := 0 |};
             {| message := CM_UPDATE_TITLE; wParam := 0; lParam := 0 |} ]
           (set_currentDpi 96 (set_window 7 BaseWindow_init)) [])))).
  repeat constructor; discriminate.
Defined.

(** X2: over a sequence of messages, the [OnResize] calls are, in order,
    exactly the (LOWORD, HIWORD) of the lparam of the WM_SIZE messages with
    SIZE_RESTORED or SIZE_MAXIMIZED; no other message causes one. *)
Theorem X2_OnResize_calls_of_sequence (os : OS) (msgs : list MSG) (this : BaseWindow) (tr : Trace) :
  OnResize_calls (events (delivered os msgs this tr))
  = map resize_args (List.filter is_shown_size msgs).
Proof.
  revert this tr. induction msgs as [|m rest IH]; intros this tr.
  - rewrite delivered_nil. reflexivity.
  - rewrite delivered_cons. unfold events. rewrite map_app, OnResize_calls_app.
    fold (events (calls_during (MessageHandler os (message m) (wParam m) (lParam m)) this tr)).
    rewrite MessageHandler_OnResize.
    unfold events in IH. rewrite IH.
    cbn [List.filter]. destruct (is_shown_size m); reflexivity.
Qed.

(** X3: the width and height that [MessageHandler] passes to [OnResize]
    are 16-bit values, whatever lparam is; when lparam packs a width [w] in
    its bits 0-15 and a height [h] in its bits 16-31, they are [w] and [h],
    whatever the bits above are. *)
Theorem X3_OnResize_arguments (os : OS) (msg : UINT) (wparam : WPARAM) (lparam : LPARAM)
    (this : BaseWindow) (tr : Trace) :
  Forall (fun wh => 0 <= fst wh < 65536 /\ 0 <= snd wh < 65536)
    (OnResize_calls (events (calls_during (MessageHandler os msg wparam lparam) this tr))) /\
  (forall w h above,
     0 <= w < 65536 -> 0 <= h < 65536 -> lparam = w + 65536 * h + 4294967296 * above ->
     msg = WM_SIZE -> wparam = SIZE_RESTORED \/ wparam = SIZE_MAXIMIZED ->
     OnResize_calls (events (calls_during (MessageHandler os msg wparam lparam) this tr))
       = [(w, h)]).
Proof.
  pose proof (MessageHandler_OnResize os
                {| message := msg; wParam := wparam; lParam := lparam |} this tr) as E.
  cbn [message wParam lParam] in E. split.
  - rewrite E. destruct (is_shown_size _); constructor; [|constructor].
    unfold resize_args. cbn [fst snd lParam]. rewrite LOWORD_mod, HIWORD_mod.
    split; apply Z.mod_pos_bound; lia.
  - intros w h above Hw Hh -> -> Hshown. rewrite E.
    unfold is_shown_size, resize_args. cbn [message wParam lParam].
    assert (Hs : (wparam =? SIZE_MAXIMIZED) || (wparam =? SIZE_RESTORED) = true)
      by (destruct Hshown as [-> | ->]; reflexivity).
    rewrite Hs. cbn [Z.eqb WM_SIZE Pos.eqb andb].
    rewrite LOWORD_mod, HIWORD_mod. f_equal. f_equal.
    + symmetry. apply (Z.mod_unique _ _ (h + 65536 * above)); lia.
    + replace ((w + 65536 * h + 4294967296 * above) / 2 ^ 16) with (h + 65536 * above).
      * symmetry. apply (Z.mod_unique _ _ above); lia.
      * apply (Z.div_unique _ _ _ w); lia.
Qed.

Lemma X3_OnResize_arguments_witness :
  let os := os_fixed 96 0 0 {| left := 0; top := 0; right := 0; bottom := 0 |} 0 in
  OnResize_calls (events (calls_during
    (MessageHandler os WM_SIZE SIZE_MAXIMIZED (800 + 65536 * 600 + 4294967296 * (-1)))
    BaseWindow_init [])) = [(800, 600)].
Proof.
  cbv zeta.
  apply (proj2 (X3_OnResize_arguments
           (os_fixed 96 0 0 {| left := 0; top := 0; right := 0; bottom := 0 |} 0)
           WM_SIZE SIZE_MAXIMIZED (800 + 65536 * 600 + 4294967296 * (-1)) BaseWindow_init [])
         800 600 (-1)); [lia | lia | reflexivity | reflexivity | right; reflexivity].
Defined.

(** X4: after any sequence of messages, [_minimized] is what the
    two-state automaton computes from the flag before and the (message,
    wparam) pairs alone: false after SIZE_RESTORED or SIZE_MAXIMIZED, true
    after SIZE_MINIMIZED, unchanged by everything else.  Neither lparam,
    nor the other fields, nor what the operating system answers matter. *)
Theorem X4_minimized_automaton (os : OS) (msgs : list MSG) (this : BaseWindow) (tr : Trace) :
  _minimized (fst (deliver os msgs this tr)) = minimized_after (_minimized this) msgs.
Proof.
  unfold minimized_after. revert this tr. induction msgs as [|m rest IH]; intros this tr.
  - reflexivity.
  - rewrite deliver_cons, IH, MessageHandler_minimized. reflexivity.
Qed.

(** X5: over a sequence of messages, the calls of the default window
    procedure are, in order, exactly the messages other than WM_DPICHANGED
    and WM_DESTROY, each with its message, wparam and lparam unmodified and
    on the window the instance had at the start. *)
Theorem X5_DefWindowProc_calls_of_sequence (os : OS) (msgs : list MSG) (this : BaseWindow) (tr : Trace) :
  List.filter is_DefWindowProc (events (delivered os msgs this tr))
  = map (default_call (_window this)) (List.filter reaches_default msgs).
Proof.
  revert this tr. induction msgs as [|m rest IH]; intros this tr.
  - rewrite delivered_nil. reflexivity.
  - rewrite delivered_cons. unfold events. rewrite map_app, List.filter_app.
    fold (events (calls_during (MessageHandler os (message m) (wParam m) (lParam m)) this tr)).
    rewrite MessageHandler_default.
    unfold events in IH. rewrite IH.
    rewrite (proj1 (MessageHandler_frame os (message m) (wParam m) (lParam m) this tr)).
    cbn [List.filter]. destruct (reaches_default m); reflexivity.
Qed.

(** X6: every call that takes a window handle and is made while a sequence
    of messages is delivered is made on the instance's own [_window]. *)
Theorem X6_only_own_window (os : OS) (msgs : list MSG) (this : BaseWindow) (tr : Trace) :
  Forall (fun ev => forall h, event_window ev = Some h -> h = _window this)
    (events (delivered os msgs this tr)).
Proof.
  revert this tr. induction msgs as [|m rest IH]; intros this tr.
  - rewrite delivered_nil. constructor.
  - rewrite delivered_cons. unfold events. rewrite map_app. apply Forall_app. split.
    + apply MessageHandler_own_window.
    + specialize (IH (fields_after (MessageHandler os (message m) (wParam m) (lParam m)) this tr)
                     (tr ++ calls_during (MessageHandler os (message m) (wParam m) (lParam m)) this tr)).
      rewrite (proj1 (MessageHandler_frame os (message m) (wParam m) (lParam m) this tr)) in IH.
      exact IH.
Qed.

Lemma X6_only_own_window_witness :
  let os := os_fixed 96 9 0 {| left := 0; top := 0; right := 640; bottom := 480 |} 0 in
  let this := set_window 7 BaseWindow_init in
  let msgs := [ {| message := WM_DPICHANGED; wParam := 0x00780078; lParam := 0 |};
                {| message := CM_UPDATE_TITLE; wParam := 0; lParam := 0 |} ] in
  In (EvSetWindowPos 7 0 0 0 640 480 0x0014) (events (delivered os msgs this [])) /\
  (7 = _window this).
Proof.
  cbv zeta.
  assert (H : In (EvSetWindowPos 7 0 0 0 640 480 0x0014)
                (events (delivered (os_fixed 96 9 0 {| left := 0; top := 0; right := 640; bottom := 480 |} 0)
                   [ {| message := WM_DPICHANGED; wParam := 0x00780078; lParam := 0 |};
                     {| message := CM_UPDATE_TITLE; wParam := 0; lParam := 0 |} ]
                   (set_window 7 BaseWindow_init) [])))
    by (right; left; reflexivity).
  split; [exact H|].
  exact (proj1 (List.Forall_forall _ _)
           (X6_only_own_window
              (os_fixed 96 9 0 {| left := 0; top := 0; right := 640; bottom := 480 |} 0)
              [ {| message := WM_DPICHANGED; wParam := 0x00780078; lParam := 0 |};
                {| message := CM_UPDATE_TITLE; wParam := 0; lParam := 0 |} ]
              (set_window 7 BaseWindow_init) [])
           _ H 7 eq_refl).
Defined.

(** X7: each call [MessageHandler] makes is caused by its own message:
    the hooks only by WM_SIZE, [PostQuitMessage] only by WM_DESTROY and
    with code 0, [SetWindowTextW] only by CM_UPDATE_TITLE, [GetWindow] and
    [SetWindowPos] only by WM_DPICHANGED, the default window procedure never
    by WM_DPICHANGED or WM_DESTROY and always on the message as received;
    and it never posts a message, asks for the DPI or a rectangle, or
    touches the user data. *)
Theorem X7_calls_caused_by_message (os : OS) (message : UINT) (wparam : WPARAM) (lparam : LPARAM)
    (this : BaseWindow) (tr : Trace) :
  Forall (caused_by message wparam lparam)
    (events (calls_during (MessageHandler os message wparam lparam) this tr)).
Proof.
  by_message_cases message wparam;
    unfold dpi_calls, shown_calls, hidden_calls;
    try destruct (os_GetWindow os tr (_window this) GW_CHILD =? 0);
    try destruct (_minimized this);
    cbn; repeat constructor; cbn; repeat split; try assumption; discriminate.
Qed.

(** ** DPI changes with a child window *)

Lemma to_LONG_in_range (z : Z) : - 2 ^ 31 <= z < 2 ^ 31 -> to_LONG z = z.
Proof. intros H. unfold to_LONG. rewrite Z.mod_small by lia. lia. Qed.

Lemma HIWORD_range (l : Z) : 0 <= HIWORD l < 65536.
Proof. rewrite HIWORD_mod. apply Z.mod_pos_bound. lia. Qed.

(** X8: when the window has a child, [HandleDpiChange] returns 0, caches
    HIWORD(wParam), a 16-bit value, in [_currentDpi], leaves the other
    fields as they were ([_inDpiChange] cleared), and after [GetWindow]
    makes the one call [SetWindowPos] on the window, without z-order or
    activation change, at the left and top of the rectangle behind lParam
    and with its width and height (right - left and bottom - top, when
    these fit a LONG). *)
Theorem X8_HandleDpiChange_with_child (os : OS) (hWnd : HWND) (wParam : WPARAM) (lParam : LPARAM)
    (this : BaseWindow) (tr : Trace) :
  os_GetWindow os tr hWnd GW_CHILD <> 0 ->
  let asked := tr ++ [a_call (EvGetWindow hWnd GW_CHILD) (set_inDpiChange true this)] in
  let rc := os_RECT_at os asked lParam in
  let this' := fields_after (HandleDpiChange os hWnd wParam lParam) this tr in
  result_of (HandleDpiChange os hWnd wParam lParam) this tr = 0 /\
  this' = set_inDpiChange false (set_currentDpi (HIWORD wParam) this) /\
  0 <= _currentDpi this' < 65536 /\
  exists w h,
    events (calls_during (HandleDpiChange os hWnd wParam lParam) this tr) =
      [EvGetWindow hWnd GW_CHILD; EvSetWindowPos hWnd 0 (left rc) (top rc) w h 0x0014] /\
    (- 2 ^ 31 <= right rc - left rc < 2 ^ 31 -> w = right rc - left rc) /\
    (- 2 ^ 31 <= bottom rc - top rc < 2 ^ 31 -> h = bottom rc - top rc).
Proof.
  intros Hchild asked rc this'. subst this'.
  unfold result_of, fields_after, calls_during. rewrite HandleDpiChange_run.
  cbn [fst snd]. rewrite drop_app_length.
  unfold dpi_fields, dpi_calls. apply Z.eqb_neq in Hchild. rewrite Hchild.
  split; [reflexivity|]. split; [reflexivity|]. split; [apply HIWORD_range|].
  fold asked. fold rc.
  exists (to_LONG (right rc - left rc)), (to_LONG (bottom rc - top rc)).
  split; [reflexivity|]. split; apply to_LONG_in_range.
Qed.

Lemma X8_HandleDpiChange_with_child_witness :
  let os := os_fixed 96 9 0 {| left := 10; top := 20; right := 810; bottom := 620 |} 0 in
  let this := set_currentDpi 96 (set_window 7 BaseWindow_init) in
  fields_after (HandleDpiChange os 7 0x00900090 4096) this [] =
    set_inDpiChange false (set_currentDpi (HIWORD 0x00900090) this).
Proof.
  cbv zeta.
  exact (proj1 (proj2 (X8_HandleDpiChange_with_child
           (os_fixed 96 9 0 {| left := 10; top := 20; right := 810; bottom := 620 |} 0)
           7 0x00900090 4096 (set_currentDpi 96 (set_window 7 BaseWindow_init)) []
           ltac:(discriminate)))).
Defined.

(** ** The window procedure and the store of instances *)

Lemma WndProc_WM_NCCREATE_ok (os : OS) (window : HWND) (wparam : WPARAM) (lparam : LPARAM)
    (w : World) (obj : BaseWindow) :
  window <> 0 ->
  let that := os_lpCreateParams_at os (trace w) lparam in
  that <> 0 -> heap w !! that = Some obj -> _window obj = 0 ->
  let owned := set_window window obj in
  let tr2 := log (EvEnableNonClientDpiScaling window) (Some owned)
               (log (EvSetWindowLongPtr window GWLP_USERDATA that) (Some owned) (trace w)) in
  let created := set_currentDpi (to_UINT (os_GetDpiForWindow os tr2 window)) owned in
  let tr3 := log (EvGetDpiForWindow window) (Some owned) tr2 in
  WndProc os window WM_NCCREATE wparam lparam w =
    Returned (os_DefWindowProc os tr3 window WM_NCCREATE wparam lparam)
      {| heap := <[that := created]> (heap w);
         userdata := <[(window, GWLP_USERDATA) := that]> (userdata w);
         trace := log (EvDefWindowProc window WM_NCCREATE wparam lparam) (Some created) tr3 |}.
Proof.
  intros Hwin that Hthat Hobj Hunset. apply Z.eqb_neq in Hwin, Hthat.
  unfold WndProc. rewrite Hwin. cbn [Z.eqb WM_NCCREATE Pos.eqb]. fold that.
  rewrite Hthat, Hobj, Hunset. reflexivity.
Qed.

Lemma WndProc_registered (os : OS) (window : HWND) (message : UINT) (wparam : WPARAM)
    (lparam : LPARAM) (w : World) (that : Z) (obj : BaseWindow) :
  window <> 0 -> message <> WM_NCCREATE ->
  userdata w !! (window, GWLP_USERDATA) = Some that -> that <> 0 ->
  heap w !! that = Some obj ->
  let tr1 := log (EvGetWindowLongPtr window GWLP_USERDATA) None (trace w) in
  let handler := MessageHandler os message wparam lparam in
  WndProc os window message wparam lparam w =
    Returned (result_of handler obj tr1)
      {| heap := <[that := fields_after handler obj tr1]> (heap w);
         userdata := userdata w;
         trace := tr1 ++ calls_during handler obj tr1 |}.
Proof.
  intros Hwin Hmsg Hreg Hthat Hobj tr1 handler.
  apply Z.eqb_neq in Hwin, Hthat.
  assert (Hm : (WM_NCCREATE =? message) = false) by (apply Z.eqb_neq; congruence).
  unfold WndProc, GetThisFromHandle, GetWindowLongPtr. rewrite Hwin, Hm, Hreg.
  change (default 0 (Some that)) with that.
  cbn [heap trace userdata]. rewrite Hthat, Hobj. cbn [negb].
  fold tr1. subst handler. rewrite <- MessageHandler_appends.
  unfold result_of, fields_after.
  destruct (MessageHandler os message wparam lparam obj tr1) as [[r obj'] tr'].
  reflexivity.
Qed.

(** X9: after a successful WM_NCCREATE, [GetThisFromHandle] of the window
    is the instance pointer that came in [lpCreateParams], [GetHandle] of
    that instance is the window, and [GetThisFromHandle] of every other
    window is what it was. *)
Theorem X9_creation_round_trip (os : OS) (window : HWND) (wparam : WPARAM) (lparam : LPARAM)
    (w : World) (obj : BaseWindow) :
  window <> 0 ->
  let that := os_lpCreateParams_at os (trace w) lparam in
  that <> 0 -> heap w !! that = Some obj -> _window obj = 0 ->
  let w' := world_of (WndProc os window WM_NCCREATE wparam lparam w) in
  fst (GetThisFromHandle window w') = that /\
  (exists obj', heap w' !! that = Some obj' /\ forall tr, result_of GetHandle obj' tr = window) /\
  (forall window2 : HWND, window2 <> window ->
     fst (GetThisFromHandle window2 w') = fst (GetThisFromHandle window2 w)).
Proof.
  intros Hwin that Hthat Hobj Hunset w'. subst w'.
  rewrite (WndProc_WM_NCCREATE_ok os window wparam lparam w obj Hwin Hthat Hobj Hunset).
  fold that. cbn [world_of]. unfold GetThisFromHandle, GetWindowLongPtr. cbn [fst userdata heap].
  split; [rewrite lookup_insert_eq; reflexivity|]. split.
  - eexists. split; [apply lookup_insert_eq|]. intros tr. reflexivity.
  - intros window2 Hne. rewrite lookup_insert_ne by congruence. reflexivity.
Qed.

Lemma X9_creation_round_trip_witness :
  let os := os_fixed 144 0 1 {| left := 0; top := 0; right := 0; bottom := 0 |} 4096 in
  let w := {| heap := {[ 4096 := BaseWindow_init ]}; userdata := ∅; trace := [] |} in
  fst (GetThisFromHandle 7 (world_of (WndProc os 7 WM_NCCREATE 0 0 w))) = 4096.
Proof.
  cbv zeta.
  exact (proj1 (X9_creation_round_trip
           (os_fixed 144 0 1 {| left := 0; top := 0; right := 0; bottom := 0 |} 4096)
           7 0 0 {| heap := {[ 4096 := BaseWindow_init ]}; userdata := ∅; trace := [] |}
           BaseWindow_init ltac:(discriminate) ltac:(discriminate) eq_refl eq_refl)).
Defined.



(** X11: an instance takes a window once.  After a successful WM_NCCREATE
    on an instance, a WM_NCCREATE that carries the same instance pointer,
    for whatever window, fails [WINRT_ASSERT(!that->_window)] and changes
    nothing. *)
Theorem X11_second_creation_fails (os : OS) (window : HWND) (wparam : WPARAM) (lparam : LPARAM)
    (w : World) (obj : BaseWindow) (window2 : HWND) (wparam2 : WPARAM) (lparam2 : LPARAM) :
  window <> 0 ->
  let that := os_lpCreateParams_at os (trace w) lparam in
  that <> 0 -> heap w !! that = Some obj -> _window obj = 0 ->
  let w1 := world_of (WndProc os window WM_NCCREATE wparam lparam w) in
  window2 <> 0 -> os_lpCreateParams_at os (trace w1) lparam2 = that ->
  WndProc os window2 WM_NCCREATE wparam2 lparam2 w1 = AssertFailed Assert_not_that_window w1.
Proof.
  intros Hwin that Hthat Hobj Hunset w1 Hwin2 Hsame. subst w1.
  rewrite (WndProc_WM_NCCREATE_ok os window wparam lparam w obj Hwin Hthat Hobj Hunset) in *.
  fold that in Hsame |- *. cbn [world_of] in *.
  apply Z.eqb_neq in Hwin2, Hthat. apply Z.eqb_neq in Hwin.
  unfold WndProc at 1. rewrite Hwin2. cbn [Z.eqb WM_NCCREATE Pos.eqb].
  cbn [trace] in Hsame |- *. rewrite Hsame, Hthat. cbn [heap].
  rewrite lookup_insert_eq. cbn [_window set_currentDpi set_window].
  rewrite Hwin. reflexivity.
Qed.

Lemma X11_second_creation_fails_witness :
  let os := os_fixed 120 0 5 {| left := 0; top := 0; right := 0; bottom := 0 |} 4096 in
  let w := {| heap := {[ 4096 := BaseWindow_init ]}; userdata := ∅; trace := [] |} in
  let w1 := world_of (WndProc os 7 WM_NCCREATE 0 1000 w) in
  WndProc os 8 WM_NCCREATE 0 1000 w1 = AssertFailed Assert_not_that_window w1.
Proof.
  cbv zeta.
  exact (X11_second_creation_fails
           (os_fixed 120 0 5 {| left := 0; top := 0; right := 0; bottom := 0 |} 4096)
           7 0 1000 {| heap := {[ 4096 := BaseWindow_init ]}; userdata := ∅; trace := [] |}
           BaseWindow_init 8 0 1000
           ltac:(discriminate) ltac:(discriminate) eq_refl eq_refl ltac:(discriminate) eq_refl).
Defined.

(** X12: [WndProc] neither adds nor removes an instance and changes at
    most one; it changes the user data only on WM_NCCREATE; and when it
    ends in a failed assertion or on a pointer that designates no
    instance, the instances and the user data are as they were. *)
Theorem X12_WndProc_store_frame (os : OS) (window : HWND) (message : UINT) (wparam : WPARAM)
    (lparam : LPARAM) (w : World) :
  let o := WndProc os window message wparam lparam w in
  dom (heap (world_of o)) = dom (heap w) /\
  (message <> WM_NCCREATE -> userdata (world_of o) = userdata w) /\
  ((forall r w', o <> Returned r w') ->
     heap (world_of o) = heap w /\ userdata (world_of o) = userdata w) /\
  (exists that, forall a, a <> that -> heap (world_of o) !! a = heap w !! a).
Proof.
  cbv zeta. unfold WndProc.
  destruct (window =? 0);
    [cbn [world_of]; repeat split; exists 0; reflexivity|].
  destruct (WM_NCCREATE =? message) eqn:Hm.
  - apply Z.eqb_eq in Hm.
    destruct (os_lpCreateParams_at os (trace w) lparam =? 0);
      [cbn [world_of]; repeat split; exists 0; reflexivity|].
    destruct (heap w !! os_lpCreateParams_at os (trace w) lparam) as [obj|] eqn:Hobj;
      [|cbn [world_of]; repeat split; exists 0; reflexivity].
    destruct (negb (_window obj =? 0));
      [cbn [world_of]; repeat split; exists 0; reflexivity|].
    unfold WndProc_default. cbn [world_of heap userdata trace].
    split; [apply dom_insert_lookup_L; eauto|].
    split; [congruence|].
    split; [intros Hnot; exfalso; eapply Hnot; reflexivity|].
    exists (os_lpCreateParams_at os (trace w) lparam).
    intros a Ha. apply lookup_insert_ne. congruence.
  - unfold GetThisFromHandle, GetWindowLongPtr.
    destruct (negb (default 0 (userdata w !! (window, GWLP_USERDATA)) =? 0));
      [|unfold WndProc_default; cbn [world_of heap userdata]; repeat split; exists 0; reflexivity].
    cbn [heap trace userdata].
    destruct (heap w !! default 0 (userdata w !! (window, GWLP_USERDATA))) as [obj|] eqn:Hobj;
      [|cbn [world_of heap userdata]; repeat split; exists 0; reflexivity].
    destruct (MessageHandler os message wparam lparam obj
                (log (EvGetWindowLongPtr window GWLP_USERDATA) None (trace w)))
      as [[r obj'] tr'].
    cbn [world_of heap userdata].
    split; [apply dom_insert_lookup_L; eauto|].
    split; [reflexivity|].
    split; [intros Hnot; exfalso; eapply Hnot; reflexivity|].
    exists (default 0 (userdata w !! (window, GWLP_USERDATA))).
    intros a Ha. apply lookup_insert_ne. congruence.
Qed.

Lemma X12_WndProc_store_frame_witness :
  let os := os_fixed 120 0 5 {| left := 0; top := 0; right := 0; bottom := 0 |} 0 in
  let w := {| heap := {[ 4096 := BaseWindow_init ]}; userdata := ∅; trace := [] |} in
  heap (world_of (WndProc os 7 WM_NCCREATE 0 0 w)) = heap w /\
  userdata (world_of (WndProc os 7 WM_NCCREATE 0 0 w)) = userdata w.
Proof.
  cbv zeta.
  apply (proj1 (proj2 (proj2 (X12_WndProc_store_frame
           (os_fixed 120 0 5 {| left := 0; top := 0; right := 0; bottom := 0 |} 0)
           7 WM_NCCREATE 0 0
           {| heap := {[ 4096 := BaseWindow_init ]}; userdata := ∅; trace := [] |})))).
  intros r w'. discriminate.
Defined.

(** ** Several title updates *)

(** X13: a title update carries no title of its own.  When [UpdateTitle]
    is called twice before the posted CM_UPDATE_TITLE messages are handled,
    both messages (posted with wparam and lparam 0) set the window text to
    the second title, and the cached title is the second one. *)
Theorem X13_last_title_wins (os : OS) (t1 t2 : wstring) (this : BaseWindow) (tr : Trace) :
  let both : M LRESULT :=
    UpdateTitle t1;; UpdateTitle t2;;
    MessageHandler os CM_UPDATE_TITLE 0 0;; MessageHandler os CM_UPDATE_TITLE 0 0 in
  events (calls_during both this tr) =
    [EvPostMessageW (_window this) CM_UPDATE_TITLE 0 0;
     EvPostMessageW (_window this) CM_UPDATE_TITLE 0 0;
     EvSetWindowTextW (_window this) (c_str t2);
     EvDefWindowProc (_window this) CM_UPDATE_TITLE 0 0;
     EvSetWindowTextW (_window this) (c_str t2);
     EvDefWindowProc (_window this) CM_UPDATE_TITLE 0 0] /\
  fields_after both this tr = set_title t2 this.
Proof.
  cbv zeta. unfold calls_during, fields_after.
  unfold mbind at 1 2 3, M_bind.
  change (UpdateTitle t1 this tr) with
    (tt, set_title t1 this,
     tr ++ [a_call (EvPostMessageW (_window this) CM_UPDATE_TITLE 0 0) (set_title t1 this)]).
  cbv iota beta.
  change (UpdateTitle t2 (set_title t1 this)
            (tr ++ [a_call (EvPostMessageW (_window this) CM_UPDATE_TITLE 0 0) (set_title t1 this)]))
    with
    (tt, set_title t2 this,
     (tr ++ [a_call (EvPostMessageW (_window this) CM_UPDATE_TITLE 0 0) (set_title t1 this)])
     ++ [a_call (EvPostMessageW (_window this) CM_UPDATE_TITLE 0 0) (set_title t2 this)]).
  cbv iota beta.
  rewrite !MessageHandler_CM_UPDATE_TITLE. cbv iota beta.
  rewrite ?MessageHandler_CM_UPDATE_TITLE. cbn [fst snd _window _title set_title].
  rewrite <- !app_assoc, drop_app_length. split; reflexivity.
Qed.

(** ** The logical size of the client area, and unusual DPIs *)

(** X14: at the default DPI, [GetLogicalSize()] of a window whose client
    rectangle is between 1 and 2^23 - 1 pixels wide and high is exactly
    that width plus one half by that height plus one half; it asks for
    the client rectangle, then for the DPI, and changes no field. *)
Theorem X14_logical_size_of_client_area (os : OS) (this : BaseWindow) (tr : Trace) :
  let rc := os_GetClientRect os tr (_window this) in
  let asked := tr ++ [a_call (EvGetClientRect (_window this)) this] in
  0 < right rc - left rc < 2 ^ 23 -> 0 < bottom rc - top rc < 2 ^ 23 ->
  to_UINT (os_GetDpiForWindow os asked (_window this)) = USER_DEFAULT_SCREEN_DPI ->
  let logical := result_of (GetLogicalSize0 os) this tr in
  (exists w h,
     Float32.to_Q (Width logical) = Some w /\ Float32.to_Q (Height logical) = Some h /\
     (w == inject_Z (right rc - left rc) + (1 # 2))%Q /\
     (h == inject_Z (bottom rc - top rc) + (1 # 2))%Q) /\
  fields_after (GetLogicalSize0 os) this tr = this /\
  events (calls_during (GetLogicalSize0 os) this tr) =
    [EvGetClientRect (_window this); EvGetDpiForWindow (_window this)].
Proof.
  intros rc asked Hw Hh Hdpi logical. subst logical.
  assert (E : result_of (GetLogicalSize0 os) this tr =
              result_of (GetLogicalSize os {| cx := right rc - left rc; cy := bottom rc - top rc |})
                this asked).
  { unfold result_of. run_M. cbn [fst]. fold rc.
    rewrite !to_LONG_in_range by lia. reflexivity. }
  rewrite E. split.
  - apply GetLogicalSize_at_default_dpi; [exact Hdpi | exact Hw | exact Hh].
  - unfold fields_after, calls_during. run_M. cbn [fst snd].
    rewrite <- app_assoc, drop_app_length. split; reflexivity.
Qed.

Lemma X14_logical_size_of_client_area_witness :
  let os := os_fixed 96 0 0 {| left := 0; top := 0; right := 1920; bottom := 1080 |} 0 in
  fields_after (GetLogicalSize0 os) (set_window 7 BaseWindow_init) [] = set_window 7 BaseWindow_init.
Proof.
  cbv zeta.
  apply (X14_logical_size_of_client_area
           (os_fixed 96 0 0 {| left := 0; top := 0; right := 1920; bottom := 1080 |} 0)
           (set_window 7 BaseWindow_init) []); [cbn; lia | cbn; lia | reflexivity].
Defined.

(** A negative integer above -2^23 converts to a finite negative float. *)
Lemma of_Z_small_negative (p : positive) :
  Zpos p < 2 ^ 23 ->
  Float32.of_Z (Zneg p) =
    S754_finite true (Pos.iter xO p (24 - digits2_pos p)) (Zpos (digits2_pos p) - 24).
Proof.
  intros H. pose proof (digits2_pos_small p H) as Hd.
  unfold Float32.of_Z, binary_normalize, binary_round.
  replace (fexp Float32.prec Float32.emax (Zpos (digits2_pos p) + 0))
    with (Zneg (24 - digits2_pos p))
    by (unfold fexp, emin, Float32.prec, Float32.emax; lia).
  unfold shl_align. rewrite Z.sub_0_r.
  change Float32.prec with 24. change Float32.emax with 128.
  rewrite binary_round_aux_canonical; [f_equal; lia | | lia].
  rewrite digits2_pos_shift. lia.
Qed.

Lemma logical_width_at_zero_dpi (physical : Z) :
  - 2 ^ 23 < physical < 2 ^ 23 ->
  Float32.add (Float32.div (Float32.of_Z physical)
                 (Float32.div (Float32.of_Z 0) (Float32.of_Z USER_DEFAULT_SCREEN_DPI)))
    Float32.half = logical_at_zero_dpi physical.
Proof.
  intros H. unfold logical_at_zero_dpi.
  change (Float32.div (Float32.of_Z 0) (Float32.of_Z USER_DEFAULT_SCREEN_DPI))
    with (S754_zero false).
  destruct physical as [|p|p].
  - reflexivity.
  - rewrite of_Z_small by lia. reflexivity.
  - rewrite of_Z_small_negative by lia. reflexivity.
Qed.

(** X15: for a window whose DPI the operating system gives as 0 (as
    [GetDpiForWindow] does for an invalid handle) the scale is 0 and the
    logical size is not finite: each dimension is +infinity for a positive
    physical size, -infinity for a negative one and NaN for 0 (sizes of
    magnitude below 2^23). *)
Theorem X15_zero_dpi_is_not_finite (os : OS) (this : BaseWindow) (tr : Trace) (physicalSize : SIZE) :
  to_UINT (os_GetDpiForWindow os tr (_window this)) = 0 ->
  - 2 ^ 23 < cx physicalSize < 2 ^ 23 -> - 2 ^ 23 < cy physicalSize < 2 ^ 23 ->
  result_of (GetCurrentDpiScale os) this tr = S754_zero false /\
  result_of (GetLogicalSize os physicalSize) this tr =
    {| Width := logical_at_zero_dpi (cx physicalSize);
       Height := logical_at_zero_dpi (cy physicalSize) |} /\
  Float32.to_Q (Width (result_of (GetLogicalSize os physicalSize) this tr)) = None /\
  Float32.to_Q (Height (result_of (GetLogicalSize os physicalSize) this tr)) = None.
Proof.
  intros Hdpi Hx Hy.
  assert (E : result_of (GetLogicalSize os physicalSize) this tr =
              {| Width := logical_at_zero_dpi (cx physicalSize);
                 Height := logical_at_zero_dpi (cy physicalSize) |}).
  { unfold result_of. run_M. cbn [fst]. rewrite Hdpi.
    rewrite !logical_width_at_zero_dpi by assumption. reflexivity. }
  split; [unfold result_of; run_M; cbn [fst]; rewrite Hdpi; reflexivity|].
  split; [exact E|]. rewrite E. cbn [Width Height]. unfold logical_at_zero_dpi.
  split; [destruct (cx physicalSize =? 0) | destruct (cy physicalSize =? 0)]; reflexivity.
Qed.

Lemma X15_zero_dpi_is_not_finite_witness :
  let os := os_fixed 0 0 0 {| left := 0; top := 0; right := 0; bottom := 0 |} 0 in
  result_of (GetLogicalSize os {| cx := 800; cy := 0 |}) BaseWindow_init [] =
    {| Width := S754_infinity false; Height := S754_nan |}.
Proof.
  cbv zeta.
  exact (proj1 (proj2 (X15_zero_dpi_is_not_finite
           (os_fixed 0 0 0 {| left := 0; top := 0; right := 0; bottom := 0 |} 0)
           BaseWindow_init [] {| cx := 800; cy := 0 |}
           eq_refl ltac:(cbn; lia) ltac:(cbn; lia)))).
Defined.

Lemma accurate_cells :
  forallb (fun dpi =>
    forallb (fun k => within (1 # 4096) (logical_width dpi (Z.of_nat k))
                        (logical_formula (Z.of_nat k) dpi))
            (seq 0 (Z.to_nat 4097))) standard_dpis = true.
Proof. vm_compute. reflexivity. Qed.

Lemma logical_width_accurate (dpi z : Z) :
  In dpi standard_dpis -> 0 <= z <= 4096 ->
  within (1 # 4096) (logical_width dpi z) (logical_formula z dpi) = true.
Proof.
  intros Hdpi Hz.
  pose proof (proj1 (forallb_forall _ _) accurate_cells dpi Hdpi) as Hrow.
  cbv beta in Hrow.
  pose proof (proj1 (forallb_forall _ _) Hrow (Z.to_nat z)) as Hcell.
  cbv beta in Hcell. rewrite Z2Nat.id in Hcell by lia.
  apply Hcell. apply in_seq. lia.
Qed.

Lemma GetLogicalSize_logical_width (os : OS) (this : BaseWindow) (tr : Trace) (physicalSize : SIZE) :
  result_of (GetLogicalSize os physicalSize) this tr =
    {| Width := logical_width (os_GetDpiForWindow os tr (_window this)) (cx physicalSize);
       Height := logical_width (os_GetDpiForWindow os tr (_window this)) (cy physicalSize) |}.
Proof. reflexivity. Qed.

(** X16: at the DPIs 120, 144, 168 and 192 (the scale factors 125%, 150%,
    175% and 200%) and for every physical size from 0 to 4096 pixels, the
    single-precision logical dimension that [GetLogicalSize] returns is
    finite and within 1/4096 of the exact value physical * 96 / DPI + 1/2. *)
Theorem X16_accuracy_at_standard_dpis (os : OS) (this : BaseWindow) (tr : Trace) (physicalSize : SIZE) :
  let dpi := os_GetDpiForWindow os tr (_window this) in
  In dpi standard_dpis ->
  0 <= cx physicalSize <= 4096 -> 0 <= cy physicalSize <= 4096 ->
  let logical := result_of (GetLogicalSize os physicalSize) this tr in
  within (1 # 4096) (Width logical) (logical_formula (cx physicalSize) dpi) = true /\
  within (1 # 4096) (Height logical) (logical_formula (cy physicalSize) dpi) = true.
Proof.
  intros dpi Hdpi Hx Hy logical. subst logical.
  rewrite GetLogicalSize_logical_width. cbn [Width Height]. fold dpi.
  split; apply logical_width_accurate; assumption.
Qed.

Lemma X16_accuracy_at_standard_dpis_witness :
  let os := os_fixed 144 0 0 {| left := 0; top := 0; right := 0; bottom := 0 |} 0 in
  let physicalSize := {| cx := 1001; cy := 7 |} in
  In 144 standard_dpis /\
  within (1 # 4096)
    (Width (result_of (GetLogicalSize os physicalSize) BaseWindow_init []))
    (logical_formula 1001 144) = true.
Proof.
  cbv zeta.
  assert (Hin : In 144 standard_dpis) by (right; left; reflexivity).
  split; [exact Hin|].
  exact (proj1 (X16_accuracy_at_standard_dpis
           (os_fixed 144 0 0 {| left := 0; top := 0; right := 0; bottom := 0 |} 0)
           BaseWindow_init [] {| cx := 1001; cy := 7 |}
           Hin ltac:(cbn; lia) ltac:(cbn; lia))).
Defined.

(** ** A registered window over a sequence of messages *)

(** X17: for a window registered on an instance, every sequence of
    messages without WM_NCCREATE passes the window procedure without a
    failed assertion; afterwards the user data and all other instances are
    as before, and the instance has its [_window] and [_title] unchanged
    and its [_minimized] as the two-state automaton computes it from the
    messages. *)
Theorem X17_pump_registered_window (os : OS) (window : HWND) (that : Z) (msgs : list MSG) :
  window <> 0 -> that <> 0 ->
  Forall (fun m => message m <> WM_NCCREATE) msgs ->
  forall (r0 : LRESULT) (w : World) (obj : BaseWindow),
    userdata w !! (window, GWLP_USERDATA) = Some that ->
    heap w !! that = Some obj ->
    exists r w' obj',
      pump os window msgs r0 w = Returned r w' /\
      userdata w' = userdata w /\
      heap w' !! that = Some obj' /\
      (forall a, a <> that -> heap w' !! a = heap w !! a) /\
      _window obj' = _window obj /\ _title obj' = _title obj /\
      _minimized obj' = minimized_after (_minimized obj) msgs.
Proof.
  intros Hwin Hthat Hall. induction Hall as [|m rest Hm Hrest IH]; intros r0 w obj Hreg Hobj.
  - exists r0, w, obj. cbn [pump]. repeat split; try reflexivity; assumption.
  - cbn [pump].
    rewrite (WndProc_registered os window (message m) (wParam m) (lParam m) w that obj
               Hwin Hm Hreg Hthat Hobj).
    cbv zeta.
    set (tr1 := log (EvGetWindowLongPtr window GWLP_USERDATA) None (trace w)).
    set (handler := MessageHandler os (message m) (wParam m) (lParam m)).
    destruct (MessageHandler_frame os (message m) (wParam m) (lParam m) obj tr1)
      as (Fw & Ft & _ & _).
    pose proof (MessageHandler_minimized os m obj tr1) as Fm.
    fold handler in Fw, Ft, Fm.
    destruct (IH (result_of handler obj tr1)
                {| heap := <[that := fields_after handler obj tr1]> (heap w);
                   userdata := userdata w;
                   trace := tr1 ++ calls_during handler obj tr1 |}
                (fields_after handler obj tr1) Hreg (lookup_insert_eq _ _ _))
      as (r & w' & obj' & Hpump & Hud & Hheap & Hframe & Hw' & Ht' & Hm').
    exists r, w', obj'. cbn [userdata heap] in *.
    split; [exact Hpump|]. split; [exact Hud|]. split; [exact Hheap|]. split.
    + intros a Ha. rewrite (Hframe a Ha). apply lookup_insert_ne. congruence.
    + rewrite Hw', Ht', Hm', Fw, Ft, Fm. repeat split; reflexivity.
Qed.

Lemma X17_pump_registered_window_witness :
  let os := os_fixed 96 0 5 {| left := 0; top := 0; right := 0; bottom := 0 |} 0 in
  let w := {| heap := {[ 4096 := set_window 7 BaseWindow_init ]};
              userdata := {[ (7, GWLP_USERDATA) := 4096 ]}; trace := [] |} in
  let msgs := [ {| message := WM_SIZE; wParam := SIZE_MINIMIZED; lParam := 0 |};
                {| message := WM_DESTROY; wParam := 0; lParam := 0 |} ] in
  exists r w' obj',
    pump os 7 msgs 0 w = Returned r w' /\ heap w' !! 4096 = Some obj' /\ _minimized obj' = true.
Proof.
  cbv zeta.
  destruct (X17_pump_registered_window
              (os_fixed 96 0 5 {| left := 0; top := 0; right := 0; bottom := 0 |} 0)
              7 4096
              [ {| message := WM_SIZE; wParam := SIZE_MINIMIZED; lParam := 0 |};
                {| message := WM_DESTROY; wParam := 0; lParam := 0 |} ]
              ltac:(discriminate) ltac:(discriminate)
              ltac:(repeat constructor; discriminate)
              0
              {| heap := {[ 4096 := set_window 7 BaseWindow_init ]};
                 userdata := {[ (7, GWLP_USERDATA) := 4096 ]}; trace := [] |}
              (set_window 7 BaseWindow_init)
              ltac:(apply lookup_singleton_eq) ltac:(apply lookup_singleton_eq))
    as (r & w' & obj' & Hpump & _ & Hheap & _ & _ & _ & Hmin).
  exists r, w', obj'. split; [exact Hpump|]. split; [exact Hheap|]. exact Hmin.
Defined.
